(** * gis_tool: buffer_processor.py and data_loader.py

    A shallow embedding of the two modules of the GIS pipeline tool:
    the buffer / exclusion / merge pipeline of [buffer_processor.py] and
    the report ingestion of [data_loader.py].

    Python floats are IEEE binary64 numbers, modelled by Rocq's primitive
    floats.  Strings are modelled as ASCII strings.  The geometry and
    projection libraries (shapely, pyproj) are an interface
    ([GeometryEngine]); exceptions are values of [result]; the files on
    disk are an explicit [World]. *)

From Stdlib Require Import Floats Uint63 ZArith List Bool Ascii String Lia.
From stdpp Require Import base option list gmap strings.

Set Default Proof Using "Type".
Set Warnings "-inexact-float,-clear-no-such-hyp".
Local Open Scope string_scope.

(** ** Exceptions *)

Inductive exn : Type :=
  | ValueError (msg : string)
  | AttributeError (msg : string)
  | KeyError (key : string)
  | DriverError (path : string)
  | MongoError (msg : string).

Inductive result (A : Type) : Type :=
  | Ok (a : A)
  | Raise (e : exn).
Arguments Ok {A} a.
Arguments Raise {A} e.

#[global] Instance result_ret : MRet result := @Ok.
#[global] Instance result_bind : MBind result :=
  fun A B f m => match m with Ok a => f a | Raise e => Raise e end.
#[global] Instance result_fmap : FMap result :=
  fun A B f m => match m with Ok a => Ok (f a) | Raise e => Raise e end.

Definition is_ok {A} (r : result A) : bool :=
  match r with Ok _ => true | Raise _ => false end.

(** ** Coordinate reference systems

    A CRS is identified by its authority code; equality is by code. *)

Inductive CRS : Type := EPSG (code : N).

#[global] Instance CRS_eq_dec : EqDecision CRS.
Proof. solve_decision. Defined.

(** ** Geometries

    [geom_type] of geopandas yields the shapely type name. *)

Inductive GeomKind : Type :=
  | Point | LineString | LinearRing | Polygon
  | MultiPoint | MultiLineString | MultiPolygon | GeometryCollection.

#[global] Instance GeomKind_eq_dec : EqDecision GeomKind.
Proof. solve_decision. Defined.

(** The geometry-engine and projection collaborators (shapely, pyproj):
    validity and emptiness predicates, buffer by a distance, set
    difference, intersection test, the point constructor, reprojection
    between two CRS, and the geographic / projected classification. *)
Class GeometryEngine : Type := {
  Geom : Type;
  geom_kind : Geom -> GeomKind;
  geom_is_valid : Geom -> bool;
  geom_is_empty : Geom -> bool;
  geom_buffer : Geom -> float -> Geom;
  geom_difference : Geom -> Geom -> Geom;
  geom_intersects : Geom -> Geom -> bool;
  geom_point : float -> float -> Geom;
  reproject : CRS -> CRS -> Geom -> Geom;
  is_projected : CRS -> bool;
}.

(** [gis_tool.config]: the values that the two modules read from the
    configuration module are parameters. *)
Class Config : Type := {
  DEFAULT_BUFFER_DISTANCE_FT : float;
  DEFAULT_CRS : CRS;
  GEOGRAPHIC_CRS : CRS;
  BUFFER_LAYER_CRS : CRS;
  get_driver_from_extension : string -> result string;
}.

(** ** Data frames *)

Section Frames.
Context `{E : GeometryEngine}.

(** A cell of a data frame.  [VTime] is a pandas Timestamp (nanoseconds),
    [VNaT] the missing timestamp, [VNone] Python's None. *)
Inductive Value : Type :=
  | VStr (s : string)
  | VFloat (f : float)
  | VTime (t : Z)
  | VNaT
  | VNone
  | VGeom (g : Geom).

(** A row keeps the cell of the active geometry column apart from the
    cells of the other columns, which are in column order. *)
Record Row : Type := mkRow {
  cells : list Value;
  geometry : option Geom;
}.

(** [columns] lists every column name in order, the geometry column
    (named "geometry") included. *)
Record GeoDataFrame : Type := mkGDF {
  columns : list string;
  rows : list Row;
  crs : option CRS;
}.

Definition attr_columns (cols : list string) : list string :=
  filter (fun c => c ≠ "geometry") cols.

(** [df.empty]: an axis of length zero. *)
Definition empty (gdf : GeoDataFrame) : bool :=
  match rows gdf, columns gdf with
  | [], _ | _, [] => true
  | _, _ => false
  end.

(** [gdf[mask]]: boolean row selection, with the mask computed per row. *)
Definition select (keep : Row -> bool) (gdf : GeoDataFrame) : GeoDataFrame :=
  mkGDF (columns gdf) (List.filter keep (rows gdf)) (crs gdf).

(** [gdf['geometry'] = gdf.geometry.apply(f)] and the vectorised
    geometry methods: the geometry cell of every row is replaced. *)
Definition set_geometry (r : Row) (g : option Geom) : Row :=
  mkRow (cells r) g.

Definition apply_geometry (f : option Geom -> option Geom)
    (gdf : GeoDataFrame) : GeoDataFrame :=
  mkGDF (columns gdf) (map (fun r => set_geometry r (f (geometry r))) (rows gdf))
        (crs gdf).

(** [gdf['geometry'] = values], the values in row order. *)
Fixpoint assign_rows (rs : list Row) (gs : list (option Geom)) : list Row :=
  match rs, gs with
  | r :: rs', g :: gs' => set_geometry r g :: assign_rows rs' gs'
  | _, _ => []
  end.

Definition assign_geometry (gdf : GeoDataFrame) (gs : list (option Geom))
    : GeoDataFrame :=
  mkGDF (columns gdf) (assign_rows (rows gdf) gs) (crs gdf).

(** Per-row predicates of a GeoSeries; a missing geometry is neither
    valid nor empty and has no type. *)
Definition notnull (r : Row) : bool :=
  match geometry r with Some _ => true | None => false end.

Definition is_valid (r : Row) : bool :=
  match geometry r with Some g => geom_is_valid g | None => false end.

Definition is_empty (r : Row) : bool :=
  match geometry r with Some g => geom_is_empty g | None => false end.

Definition geom_type (r : Row) : option GeomKind :=
  geom_kind <$> geometry r.

Definition isin (allowed : list GeomKind) (r : Row) : bool :=
  match geom_type r with
  | Some k => bool_decide (k ∈ allowed)
  | None => false
  end.

(** The rows that every cleaning stage aims at: a geometry that is
    there, valid and not empty. *)
Definition good_row (r : Row) : bool :=
  notnull r && is_valid r && negb (is_empty r).

(** [gdf.set_crs(c, allow_override=True)] and [gdf.set_crs(c)] on a frame
    without CRS: the code is attached, coordinates stay. *)
Definition set_crs (gdf : GeoDataFrame) (c : CRS) : GeoDataFrame :=
  mkGDF (columns gdf) (rows gdf) (Some c).

(** [gdf.to_crs(target)]: raises on a frame without CRS, returns the
    frame as it is when it already has the target CRS, and transforms
    every geometry otherwise. *)
Definition to_crs (gdf : GeoDataFrame) (target : option CRS)
    : result GeoDataFrame :=
  match crs gdf, target with
  | Some c, Some t =>
      if decide (c = t) then Ok gdf
      else Ok (mkGDF (columns gdf)
                 (map (fun r => set_geometry r (reproject c t <$> geometry r))
                      (rows gdf))
                 (Some t))
  | None, _ =>
      Raise (ValueError "Cannot transform naive geometries.  Please set a crs on the object first.")
  | Some _, None => Raise (ValueError "Must pass either crs or epsg.")
  end.

(** Two frames have the same outline when they have the same columns and,
    row by row, the same geometry types. *)
Definition same_outline (a b : GeoDataFrame) : Prop :=
  columns a = columns b ∧ map geom_type (rows a) = map geom_type (rows b).

End Frames.

(** ** The files on disk

    [gpd.read_file] and [GeoDataFrame.to_file] act on a store of vector
    datasets addressed by path.  Every write is also appended to a log,
    so that "nothing was written" can be told from "the same content was
    written again". *)

Section Store.
Context `{E : GeometryEngine}.

Record World : Type := mkWorld {
  files : gmap string GeoDataFrame;
  writes : list (string * string);
}.

Definition read_file (w : World) (path : string) : result GeoDataFrame :=
  match files w !! path with
  | Some gdf => Ok gdf
  | None => Raise (DriverError path)
  end.

Definition to_file (w : World) (path driver : string) (gdf : GeoDataFrame)
    : World :=
  mkWorld (<[path := gdf]> (files w)) (writes w ++ [(path, driver)])%list.

End Store.

(** ** Helpers of the package that the two modules import

    [gis_tool.geometry_cleaning.fix_geometry] and
    [gis_tool.utils.clean_geodataframe] live in other modules of the
    package and the specification does not pin them down ("attempts a
    structural repair"; "a final validity sweep"): they are parameters.
    [metric_crs] is the metric projection that "ensure projected"
    reprojects to. *)
Class Helpers `{E : GeometryEngine} : Type := {
  fix_geometry : option Geom -> option Geom;
  clean_geodataframe : GeoDataFrame -> GeoDataFrame;
  metric_crs : CRS;
}.

Section BufferUtils.
Context `{E : GeometryEngine} `{C : Config} `{H : !Helpers}.

(** Modelled from the spec: [gis_tool.utils.convert_ft_to_m] is missing;
    "the caller-facing distance is expressed in feet and converted to
    meters using the exact factor 0.3048". *)
Definition convert_ft_to_m (feet : float) : float := (feet * 0.3048)%float.

(** Modelled from the spec: [buffer_utils.log_and_filter_invalid_geometries]
    is missing; section 4.2 (b) "drops null geometries" and (d) "drops any
    geometry still invalid or empty".  The label only goes to the log. *)
Definition log_and_filter_invalid_geometries (gdf : GeoDataFrame)
    (label : string) : GeoDataFrame :=
  select (fun r => notnull r && is_valid r && negb (is_empty r)) gdf.

(** Modelled from the spec: [spatial_utils.validate_and_reproject_crs] is
    missing; section 4.1 "if the dataset's CRS is unset, assign a
    configured default (a geographic default for general features ...).
    If a target CRS is given and differs from the current one,
    reproject"; "reprojection is skipped when CRS already equals
    target". *)
Definition validate_and_reproject_crs (gdf : GeoDataFrame)
    (target : option CRS) (label : string) : result GeoDataFrame :=
  let gdf := match crs gdf with
             | None => set_crs gdf GEOGRAPHIC_CRS
             | Some _ => gdf
             end in
  match target with
  | None => Ok gdf
  | Some t => if decide (crs gdf = Some t) then Ok gdf else to_crs gdf (Some t)
  end.

(** Modelled from the spec: [spatial_utils.ensure_projected_crs] is
    missing; section 4.1 "if the current CRS is geographic, reproject to a
    metric projection".  The spec is silent on a dataset without CRS (no
    call in the sources can pass one); it is returned as it is. *)
Definition ensure_projected_crs (gdf : GeoDataFrame) : result GeoDataFrame :=
  match crs gdf with
  | Some c => if is_projected c then Ok gdf else to_crs gdf (Some metric_crs)
  | None => Ok gdf
  end.

(** Modelled from the spec: [spatial_utils.buffer_intersects_gas_lines] is
    missing; section 4.5 "its geometry spatially intersects at least one
    geometry in the source dataset". *)
Definition buffer_intersects_gas_lines (buf_geom : option Geom)
    (gas_lines_gdf : GeoDataFrame) : bool :=
  match buf_geom with
  | Some b =>
      existsb (fun r => match geometry r with
                        | Some g => geom_intersects g b
                        | None => false
                        end) (rows gas_lines_gdf)
  | None => false
  end.

(** Modelled from the spec: [buffer_utils.subtract_park_from_geom] is
    missing; section 4.4 (4) "difference is taken against each exclusion
    geometry in turn, accumulating the remainder". *)
Definition subtract_park_from_geom (geom : option Geom)
    (parks_geoms : list (option Geom)) : option Geom :=
  fold_left (fun acc park =>
               match acc, park with
               | Some a, Some p => Some (geom_difference a p)
               | _, _ => acc
               end) parks_geoms geom.

(** Modelled from the spec: [parallel_utils.parallel_process] and the two
    picklable helpers are missing; section 5 "tasks are pure functions of
    their inputs ... results are recombined in the original submission
    order". *)
Definition parallel_process {A B} (f : A -> B) (args : list A) : list B :=
  map f args.

(** [buffer_geometry_helper((geom, distance))]: the buffer of one
    geometry, as the sequential [GeoSeries.buffer] computes it. *)
Definition buffer_geometry_helper (arg : option Geom * float) : option Geom :=
  (fun g => geom_buffer g arg.2) <$> arg.1.

(** [subtract_park_from_geom_helper((geom, parks))]: the sequential
    subtraction on one geometry. *)
Definition subtract_park_from_geom_helper
    (arg : option Geom * list (option Geom)) : option Geom :=
  subtract_park_from_geom arg.1 arg.2.

End BufferUtils.

(** ** buffer_processor.py *)

Section BufferProcessor.
Context `{E : GeometryEngine} `{C : Config} `{H : !Helpers}.

(** [if parks_path:] is false for None and for the empty string. *)
Definition truthy (s : option string) : bool :=
  match s with
  | Some s => negb (bool_decide (s = ""))
  | None => false
  end.

Definition allowed_park_types : list GeomKind := [Polygon; MultiPolygon].

(** Lines 156-174: the parks layer is read, brought to the CRS of the
    buffers, restricted to polygons, repaired and filtered. *)
Definition load_parks (w : World) (path : string) (buffer_crs : option CRS)
    : result GeoDataFrame :=
  parks_gdf ← read_file w path;
  parks_gdf ← validate_and_reproject_crs parks_gdf buffer_crs "parks";
  (* validation checks for parks *)
  let parks_gdf :=
    if existsb (fun r => negb (isin allowed_park_types r)) (rows parks_gdf)
    then select (isin allowed_park_types) parks_gdf
    else parks_gdf in
  (* fix geometries to ensure validity *)
  let parks_gdf := select notnull parks_gdf in
  let parks_gdf := apply_geometry fix_geometry parks_gdf in
  Ok (log_and_filter_invalid_geometries parks_gdf "Parks").

Definition subtract_parks_from_buffer (w : World) (buffer_gdf : GeoDataFrame)
    (parks_path : option string) (use_multiprocessing : bool)
    : result GeoDataFrame :=
  match parks_path with
  | None => Ok buffer_gdf
  | Some path =>
      parks_gdf ← load_parks w path (crs buffer_gdf);
      let buffer_gdf := select notnull buffer_gdf in
      let buffer_gdf := apply_geometry fix_geometry buffer_gdf in
      let buffer_gdf := log_and_filter_invalid_geometries buffer_gdf "Buffers" in
      let parks_geoms := map geometry (rows parks_gdf) in
      (* subtract parks from buffers *)
      let buffer_gdf :=
        if use_multiprocessing
        then
          let args := map (fun r => (geometry r, parks_geoms)) (rows buffer_gdf) in
          assign_geometry buffer_gdf
            (parallel_process subtract_park_from_geom_helper args)
        else
          apply_geometry (fun geom => subtract_park_from_geom geom parks_geoms)
            buffer_gdf in
      (* final geometry fixes and cleanup *)
      let buffer_gdf := apply_geometry fix_geometry buffer_gdf in
      let buffer_gdf :=
        select (fun r => is_valid r && negb (is_empty r)) buffer_gdf in
      Ok buffer_gdf
  end.

Definition allowed_geom_types : list GeomKind :=
  [Point; LineString; MultiLineString; MultiPoint].

(** The first statements of [create_buffer_with_geopandas]: the default
    distance when none is passed, then the conversion to meters. *)
Definition buffer_distance_m (buffer_distance_ft : option float) : float :=
  let buffer_distance_ft :=
    match buffer_distance_ft with
    | None => DEFAULT_BUFFER_DISTANCE_FT
    | Some d => d
    end in
  convert_ft_to_m buffer_distance_ft.

(** The BUFFERING block. *)
Definition buffering (use_multiprocessing : bool) (distance_m : float)
    (gas_lines_gdf : GeoDataFrame) : GeoDataFrame :=
  if use_multiprocessing
  then
    let args := map (fun r => (geometry r, distance_m)) (rows gas_lines_gdf) in
    assign_geometry gas_lines_gdf (parallel_process buffer_geometry_helper args)
  else
    apply_geometry (fun geom => (fun g => geom_buffer g distance_m) <$> geom)
      gas_lines_gdf.

Definition create_buffer_with_geopandas (w : World)
    (input_gas_lines_path : string) (buffer_distance_ft : option float)
    (parks_path : option string) (use_multiprocessing : bool)
    : result GeoDataFrame :=
  let buffer_distance_m := buffer_distance_m buffer_distance_ft in
  gas_lines_gdf ← read_file w input_gas_lines_path;
  let gas_lines_gdf :=
    match crs gas_lines_gdf with
    | None => set_crs gas_lines_gdf DEFAULT_CRS
    | Some _ => gas_lines_gdf
    end in
  gas_lines_gdf ← ensure_projected_crs gas_lines_gdf;
  (* validation checks before buffering *)
  let gas_lines_gdf :=
    if existsb (fun r => negb (isin allowed_geom_types r)) (rows gas_lines_gdf)
    then select (isin allowed_geom_types) gas_lines_gdf
    else gas_lines_gdf in
  let gas_lines_gdf :=
    log_and_filter_invalid_geometries gas_lines_gdf "Gas Lines" in
  if empty gas_lines_gdf then Ok gas_lines_gdf
  else
    let gas_lines_gdf :=
      buffering use_multiprocessing buffer_distance_m gas_lines_gdf in
    (* fix geometries after buffering *)
    let gas_lines_gdf := apply_geometry fix_geometry gas_lines_gdf in
    let gas_lines_gdf :=
      log_and_filter_invalid_geometries gas_lines_gdf "Buffered Gas Lines" in
    if empty gas_lines_gdf then Ok gas_lines_gdf
    else
      (* subtract parks if provided *)
      gas_lines_gdf ←
        (if truthy parks_path
         then subtract_parks_from_buffer w gas_lines_gdf parks_path false
         else Ok gas_lines_gdf);
      (* keep only buffers that intersect the rows of [gas_lines_gdf],
         which by now holds the buffers themselves *)
      let gas_lines_gdf :=
        select (fun r => buffer_intersects_gas_lines (geometry r) gas_lines_gdf)
          gas_lines_gdf in
      let gas_lines_gdf := clean_geodataframe gas_lines_gdf in
      (* final geometry validation before returning *)
      let gas_lines_gdf :=
        select (fun r => is_valid r && negb (is_empty r)) gas_lines_gdf in
      Ok gas_lines_gdf.

End BufferProcessor.

(** ** merge_buffers_into_planning_file *)

(** State and exceptions together: a computation maps the files on disk
    to the new files and either a value or an exception. *)
Definition IO `{E : GeometryEngine} (A : Type) : Type :=
  World -> World * result A.

#[global] Instance IO_ret `{E : GeometryEngine} : MRet IO :=
  fun A a w => (w, Ok a).
#[global] Instance IO_bind `{E : GeometryEngine} : MBind IO :=
  fun A B f m w =>
    match m w with
    | (w', Ok a) => f a w'
    | (w', Raise e) => (w', Raise e)
    end.

Section Merge.
Context `{E : GeometryEngine} `{C : Config} `{H : !Helpers}.

Definition lift {A} (r : result A) : IO A := fun w => (w, r).
Definition io_read_file (path : string) : IO GeoDataFrame :=
  fun w => (w, read_file w path).
Definition io_to_file (path driver : string) (gdf : GeoDataFrame) : IO unit :=
  fun w => (to_file w path driver gdf, Ok tt).

(** [DataFrame.reindex(columns=...)] on one row: the cell of every wanted
    column is looked up by name, NaN when the column is new. *)
Definition cell_of (cols : list string) (r : Row) (c : string) : option Value :=
  snd <$> List.find (fun kv => bool_decide (kv.1 = c))
            (zip (attr_columns cols) (cells r)).

Definition reindex_row (from to : list string) (r : Row) : Row :=
  mkRow (map (fun c => default (VFloat nan) (cell_of from r c)) (attr_columns to))
        (if bool_decide ("geometry" ∈ to) then geometry r else None).

(** [pd.concat([a, b], ignore_index=True)]: the union of the columns in
    order of first appearance, the rows of [a] then those of [b]. *)
Definition concat2 (a b : GeoDataFrame) : GeoDataFrame :=
  let cols :=
    (columns a ++ List.filter (fun c => negb (bool_decide (c ∈ columns a)))
                              (columns b))%list in
  mkGDF cols
        (map (reindex_row (columns a) cols) (rows a)
         ++ map (reindex_row (columns b) cols) (rows b))%list
        (match crs a with Some c => Some c | None => crs b end).

(** [pd.concat(frames, ignore_index=True)]; pandas raises
    "No objects to concatenate" on an empty list. *)
Definition concat (frames : list GeoDataFrame) : result GeoDataFrame :=
  match frames with
  | [] => Raise (ValueError "No objects to concatenate")
  | f :: fs => Ok (fold_left concat2 fs f)
  end.

(** [gpd.GeoSeries(values, crs=from).to_crs(to)]. *)
Definition geoseries_to_crs (gs : list (option Geom)) (from to : option CRS)
    : result (list (option Geom)) :=
  match from, to with
  | Some c, Some t =>
      if decide (c = t) then Ok gs else Ok (map (fmap (reproject c t)) gs)
  | None, _ =>
      Raise (ValueError "Cannot transform naive geometries.  Please set a crs on the object first.")
  | Some _, None => Raise (ValueError "Must pass either crs or epsg.")
  end.

(** [geom_type.unique()]: the distinct values in order of first
    appearance, None (a missing geometry) among them. *)
Definition unique_geom_types (gdf : GeoDataFrame) : list (option GeomKind) :=
  remove_dups (map geom_type (rows gdf)).

(** The conversion of a Point or LineString planning layer to polygons. *)
Definition buffer_to_polygons (future_dev_gdf : GeoDataFrame)
    (point_buffer_distance : float) : result GeoDataFrame :=
  let original_crs := crs future_dev_gdf in
  projected ← to_crs future_dev_gdf (Some (EPSG 3857));
  let buffered :=
    map (fun r => (fun g => geom_buffer (geom_buffer g point_buffer_distance) 0)
                    <$> geometry r) (rows projected) in
  back ← geoseries_to_crs buffered (crs projected) original_crs;
  Ok (assign_geometry future_dev_gdf back).

(** Lines 264-296, the stage the specification calls CRSResolved: a
    default CRS for a layer without one, the buffer layer brought to the
    CRS of the planning layer, both layers projected.

    [not gdf.crs or gdf.crs.to_string() == ''] holds exactly for a frame
    without CRS: a CRS object is truthy and never prints as the empty
    string (nor does [buffer_gdf.to_string()], which line 273 tests
    instead). *)
Definition resolve_crs (buffer_gdf future_dev_gdf : GeoDataFrame)
    : result (GeoDataFrame * GeoDataFrame) :=
  let future_dev_gdf :=
    match crs future_dev_gdf with
    | None => set_crs future_dev_gdf GEOGRAPHIC_CRS
    | Some _ => future_dev_gdf
    end in
  let buffer_gdf :=
    match crs buffer_gdf with
    | None => set_crs buffer_gdf BUFFER_LAYER_CRS
    | Some _ => buffer_gdf
    end in
  buffer_gdf ←
    validate_and_reproject_crs buffer_gdf (crs future_dev_gdf) "Buffer layer";
  buffer_gdf ← ensure_projected_crs buffer_gdf;
  future_dev_gdf ← ensure_projected_crs future_dev_gdf;
  buffer_gdf ←
    (if decide (crs buffer_gdf ≠ crs future_dev_gdf)
     then to_crs buffer_gdf (crs future_dev_gdf)
     else Ok buffer_gdf);
  Ok (buffer_gdf, future_dev_gdf).

(** The CRS that both layers have once the stage CRSResolved is over:
    that of the planning layer, the geographic default when it has none,
    replaced by the metric projection when it is geographic. *)
Definition working_crs (future_dev_gdf : GeoDataFrame) : CRS :=
  let c := default GEOGRAPHIC_CRS (crs future_dev_gdf) in
  if is_projected c then c else metric_crs.

(** Lines 298-327, GeometryHarmonized: the two hard schema checks and the
    conversion of a Point or LineString planning layer. *)
Definition harmonize_geometry (buffer_gdf future_dev_gdf : GeoDataFrame)
    (point_buffer_distance : float) : result GeoDataFrame :=
  if negb (forallb (isin [Polygon; MultiPolygon]) (rows buffer_gdf)) then
    Raise (ValueError
      "Buffer shapefile must contain only polygon or multipolygon geometries.")
  else if negb (empty future_dev_gdf) then
    let unique_future_geom_types := unique_geom_types future_dev_gdf in
    match unique_future_geom_types with
    | [future_geom_type] =>
        if bool_decide (future_geom_type ∈ [Some Polygon; Some MultiPolygon])
        then Ok future_dev_gdf
        else if bool_decide (future_geom_type ∈ [Some Point; Some LineString])
        then buffer_to_polygons future_dev_gdf point_buffer_distance
        else Raise (ValueError
               "Unsupported Future Development geometry type for conversion.")
    | _ =>
        Raise (ValueError "Future Development shapefile has mixed geometry types")
    end
  else Ok future_dev_gdf.

(** Lines 329-342, Cleaned: repair, then drop null, invalid and empty
    geometries. *)
Definition clean (gdf : GeoDataFrame) : GeoDataFrame :=
  select (fun r => notnull r && is_valid r && negb (is_empty r))
    (apply_geometry fix_geometry gdf).

(** Lines 351-352, OutputCRSResolved. *)
Definition resolve_output_crs (output_crs : option CRS)
    (buffer_gdf future_dev_gdf : GeoDataFrame) : option CRS :=
  match output_crs with
  | None => if negb (empty buffer_gdf) then crs buffer_gdf
            else crs future_dev_gdf
  | Some c => Some c
  end.

(** [point_buffer_distance] defaults to 10.0 and [output_crs] to None in
    the Python signature. *)
Definition merge_buffers_into_planning_file
    (unique_output_buffer future_development_feature_class : string)
    (point_buffer_distance : float) (output_crs : option CRS)
    : IO GeoDataFrame :=
  buffer_gdf ← io_read_file unique_output_buffer;
  future_dev_gdf ← io_read_file future_development_feature_class;
  if empty buffer_gdf then
    (* the original planning layer, unchanged *)
    mret future_dev_gdf
  else
    layers ← lift (resolve_crs buffer_gdf future_dev_gdf);
    let '(buffer_gdf, future_dev_gdf) := layers in
    future_dev_gdf ←
      lift (harmonize_geometry buffer_gdf future_dev_gdf point_buffer_distance);
    let future_dev_gdf := clean future_dev_gdf in
    let buffer_gdf := clean buffer_gdf in
    (* merge *)
    let frames :=
      List.filter (fun df => negb (empty df)) [future_dev_gdf; buffer_gdf] in
    merged ← lift (concat frames);
    let merged_gdf := mkGDF (columns merged) (rows merged) (crs future_dev_gdf) in
    (* reproject to the output CRS *)
    let output_crs := resolve_output_crs output_crs buffer_gdf future_dev_gdf in
    merged_gdf ← lift (to_crs merged_gdf output_crs);
    if empty merged_gdf then
      (* empty frame with the planning CRS, nothing written *)
      mret (mkGDF ["geometry"] [] (crs future_dev_gdf))
    else
      driver ← lift (get_driver_from_extension future_development_feature_class);
      _ ← io_to_file future_development_feature_class driver merged_gdf;
      mret merged_gdf.

End Merge.

(** ** data_loader.py *)

(** The collaborators of the ingestion: pandas and dateutil date parsing
    ([None] when the call raises ValueError or TypeError), [float(s)],
    the dtype coercion [Series.astype] (from the column of the base frame
    that fixes the dtype and the column to convert; [None] when it
    raises), and the document store behind [upsert_mongodb_feature]. *)
Class Ingestion `{E : GeometryEngine} : Type := {
  to_datetime : string -> string -> option Z;
  dateutil_parse : string -> option Z;
  parse_float : string -> option float;
  astype : list Value -> list Value -> option (list Value);
  Collection : Type;
  upsert_mongodb_feature :
    Collection -> Value -> Value -> Value -> Value -> option Geom
    -> result Collection;
}.

Section DataLoader.
Context `{E : GeometryEngine} `{I : !Ingestion}.

Definition SCHEMA_FIELDS : list string :=
  ["Name"; "Date"; "PSI"; "Material"; "geometry"].

(** [str.lower] on ASCII text. *)
Definition lower_ascii (c : ascii) : ascii :=
  let n := nat_of_ascii c in
  if (65 <=? n)%nat && (n <=? 90)%nat then ascii_of_nat (n + 32) else c.

Fixpoint lower (s : string) : string :=
  match s with
  | EmptyString => EmptyString
  | String c s' => String (lower_ascii c) (lower s')
  end.

(** [needle in hay] on strings. *)
Fixpoint contains (needle hay : string) : bool :=
  String.prefix needle hay
  || match hay with
     | EmptyString => false
     | String _ hay' => contains needle hay'
     end.

(** [pd.isna] on a scalar. *)
Definition isna (v : Value) : bool :=
  match v with
  | VNone | VNaT => true
  | VFloat f => PrimFloat.is_nan f
  | _ => false
  end.

Definition robust_date_parse (date_val : Value) : Value :=
  if isna date_val then VNaT
  else
    match date_val with
    | VTime t => VTime t
    | VStr s =>
        match to_datetime "%Y-%m-%d" s with
        | Some t => VTime t
        | None =>
        match to_datetime "%d/%m/%Y" s with
        | Some t => VTime t
        | None =>
        match to_datetime "%m/%d/%Y" s with
        | Some t => VTime t
        | None =>
        match dateutil_parse s with
        | Some t => VTime t
        | None => VNaT
        end end end end
    | _ => VNaT
    end.

(** A dict literal, as the insertions it stands for: an existing key
    keeps its place and takes the new value. *)
Fixpoint dict_set {V} (d : list (string * V)) (k : string) (v : V)
    : list (string * V) :=
  match d with
  | [] => [(k, v)]
  | (k', v') :: d' =>
      if decide (k' = k) then (k', v) :: d' else (k', v') :: dict_set d' k v
  end.

Definition dict_get {V} (d : list (string * V)) (k : string) : option V :=
  snd <$> List.find (fun kv => bool_decide (kv.1 = k)) d.

(** [gpd.GeoDataFrame(data, crs=crs)] for a dict of columns: the columns
    in key order, one row per position; arrays of different lengths
    raise. *)
Definition frame_row (data : list (string * list Value)) (i : nat) : Row :=
  mkRow
    (map (fun kv => default VNone (kv.2 !! i))
         (List.filter (fun kv => negb (bool_decide (kv.1 = "geometry"))) data))
    (match dict_get data "geometry" with
     | Some col => match col !! i with Some (VGeom g) => Some g | _ => None end
     | None => None
     end).

Definition GeoDataFrame_of_dict (data : list (string * list Value))
    (crs : option CRS) : result GeoDataFrame :=
  let n := match data with [] => 0%nat | kv :: _ => length kv.2 end in
  if forallb (fun kv => bool_decide (length kv.2 = n)) data
  then Ok (mkGDF (map fst data) (map (frame_row data) (seq 0 n)) crs)
  else Raise (ValueError "All arrays must be of the same length").

(** The f-string of the debug message reads [geometry.wkt] before
    anything else, and [material.lower()] needs a string. *)
Definition make_feature (name date psi material : Value)
    (geometry : option Geom) (crs : CRS) : result GeoDataFrame :=
  g ← match geometry with
      | Some g => Ok g
      | None => Raise (AttributeError "'NoneType' object has no attribute 'wkt'")
      end;
  material_lower ←
    match material with
    | VStr s => Ok (VStr (lower s))
    | _ => Raise (AttributeError "object has no attribute 'lower'")
    end;
  let data :=
    dict_set (dict_set (dict_set (dict_set (dict_set []
      (nth 0 SCHEMA_FIELDS "") [name])
      (nth 1 SCHEMA_FIELDS "") [date])
      (nth 2 SCHEMA_FIELDS "") [psi])
      (nth 3 SCHEMA_FIELDS "") [material_lower])
      (nth 4 SCHEMA_FIELDS "") [VGeom g] in
  GeoDataFrame_of_dict data (Some crs).

(** The state that the loops of [create_pipeline_features] update.
    [processed_pipelines] is only ever asked about names read from text
    reports, which are strings, so its string members are kept. *)
Record Pipeline : Type := mkPipeline {
  processed_reports : gset string;
  processed_pipelines : gset string;
  gas_lines_gdf : GeoDataFrame;
  features_added : bool;
  collection : option Collection;
}.

Definition mark_processed (st : Pipeline) (report_name : string) : Pipeline :=
  mkPipeline ({[report_name]} ∪ processed_reports st) (processed_pipelines st)
             (gas_lines_gdf st) (features_added st) (collection st).

(** The CRS normalisation at the head of the function:
    [if gdf.crs and gdf.crs.to_string() != spatial_reference: to_crs]. *)
Definition normalize_crs (gdf : GeoDataFrame) (spatial_reference : CRS)
    : result GeoDataFrame :=
  match crs gdf with
  | Some c =>
      if decide (c ≠ spatial_reference) then to_crs gdf (Some spatial_reference)
      else Ok gdf
  | None => Ok gdf
  end.

Definition column_values (gdf : GeoDataFrame) (c : string) : list Value :=
  map (fun r => default VNone (cell_of (columns gdf) r c)) (rows gdf).

(** The local function [align_feature_dtypes]: reindex to the columns of
    the base frame, then coerce column by column, keeping a column as it
    is when the coercion raises.  The geometry column already has the
    geometry dtype. *)
Definition align_feature_dtypes (new_feat base_gdf : GeoDataFrame)
    : GeoDataFrame :=
  let new_feat :=
    mkGDF (columns base_gdf)
          (map (reindex_row (columns new_feat) (columns base_gdf)) (rows new_feat))
          (crs new_feat) in
  let converted :=
    map (fun col =>
           let current := column_values new_feat col in
           default current (astype (column_values base_gdf col) current))
        (attr_columns (columns base_gdf)) in
  mkGDF (columns new_feat)
        (imap (fun i r =>
                 mkRow (map (fun col => default VNone (col !! i)) converted)
                       (geometry r))
              (rows new_feat))
        (crs new_feat).

(** [dropna(how="all")]. *)
Definition dropna_all (gdf : GeoDataFrame) : GeoDataFrame :=
  select (fun r => negb (forallb isna (cells r) && negb (notnull r))) gdf.

Definition add_name (names : gset string) (name : Value) : gset string :=
  match name with
  | VStr s => {[s]} ∪ names
  | _ => names
  end.

(** The tail shared by both loops: upsert, align, drop empty rows,
    append. *)
Definition add_feature (use_mongodb : bool) (st : Pipeline)
    (new_feature : GeoDataFrame) (name date psi material : Value)
    (point : option Geom) : result Pipeline :=
  coll ←
    match collection st with
    | Some coll =>
        if use_mongodb
        then Some <$> upsert_mongodb_feature coll name date psi material point
        else Ok (Some coll)
    | None => Ok None
    end;
  let new_feature := align_feature_dtypes new_feature (gas_lines_gdf st) in
  let valid_rows := dropna_all new_feature in
  if negb (empty valid_rows)
  then Ok (mkPipeline (processed_reports st)
             (add_name (processed_pipelines st) name)
             (concat2 (gas_lines_gdf st) valid_rows) true coll)
  else Ok (mkPipeline (processed_reports st) (processed_pipelines st)
             (gas_lines_gdf st) (features_added st) coll).

Fixpoint fold_result {A S} (f : S -> A -> result S) (l : list A) (st : S)
    : result S :=
  match l with
  | [] => Ok st
  | x :: l' => st' ← f st x; fold_result f l' st'
  end.

Definition row_get (cols : list string) (r : Row) (c : string) : result Value :=
  match cell_of cols r c with
  | Some v => Ok v
  | None => Raise (KeyError c)
  end.

(** The body of [for _, row in gdf.iterrows()]. *)
Definition process_geojson_row (spatial_reference : CRS) (use_mongodb : bool)
    (cols : list string) (st : Pipeline) (row : Row) : result Pipeline :=
  let point := geometry row in
  date ← row_get cols row "Date";
  let parsed_date := robust_date_parse date in
  name ← row_get cols row "Name";
  psi ← row_get cols row "PSI";
  material ← row_get cols row "Material";
  new_feature ← make_feature name parsed_date psi material point spatial_reference;
  add_feature use_mongodb st new_feature name date psi material point.

Definition missing_fields (gdf : GeoDataFrame) : list string :=
  List.filter (fun f => negb (bool_decide (f ∈ columns gdf)))
    (List.filter (fun f => negb (bool_decide (f = "geometry"))) SCHEMA_FIELDS).

(** The body of [for report_name, gdf in geojson_reports]. *)
Definition process_geojson_report (spatial_reference : CRS) (use_mongodb : bool)
    (st : Pipeline) (report : string * GeoDataFrame) : result Pipeline :=
  let '(report_name, gdf) := report in
  if bool_decide (report_name ∈ processed_reports st) then Ok st
  else
    match missing_fields gdf with
    | _ :: _ => Ok (mark_processed st report_name)
    | [] =>
        st ← fold_result
               (process_geojson_row spatial_reference use_mongodb (columns gdf))
               (rows gdf) st;
        Ok (mark_processed st report_name)
    end.

(** The body of [for line_number, line in enumerate(lines, start=1)]. *)
Definition process_txt_line (spatial_reference : CRS) (use_mongodb : bool)
    (st : Pipeline) (line : string) : result Pipeline :=
  if contains "Id Name" line then Ok st
  else
    let data := String.words line in
    if (length data <? 7)%nat then Ok st
    else
      match data !! 1%nat, data !! 2%nat ≫= parse_float,
            data !! 3%nat ≫= parse_float, data !! 4%nat,
            data !! 5%nat ≫= parse_float, data !! 6%nat with
      | Some line_name, Some x_coord, Some y_coord, Some date_completed,
        Some psi, Some material =>
          let material := lower material in
          if bool_decide (line_name ∉ processed_pipelines st) then
            let point := geom_point x_coord y_coord in
            let parsed_date := robust_date_parse (VStr date_completed) in
            new_feature ←
              make_feature (VStr line_name) parsed_date (VFloat psi)
                (VStr material) (Some point) spatial_reference;
            add_feature use_mongodb st new_feature (VStr line_name)
              (VStr date_completed) (VFloat psi) (VStr material) (Some point)
          else Ok st
      | _, _, _, _, _, _ => Ok st
      end.

(** The body of [for report_name, lines in txt_reports]. *)
Definition process_txt_report (spatial_reference : CRS) (use_mongodb : bool)
    (st : Pipeline) (report : string * list string) : result Pipeline :=
  let '(report_name, lines) := report in
  if bool_decide (report_name ∈ processed_reports st) then Ok st
  else
    st ← fold_result (process_txt_line spatial_reference use_mongodb) lines st;
    Ok (mark_processed st report_name).

(** Invariants of the loops. *)

(** The relation between the state before and after a step of the
    loops, as far as the frame and the flag go. *)
Definition frame_grows (st st' : Pipeline) : Prop :=
  columns (gas_lines_gdf st') = columns (gas_lines_gdf st)
  ∧ (length (rows (gas_lines_gdf st)) <= length (rows (gas_lines_gdf st')))%nat
  ∧ (features_added st' = false ->
     gas_lines_gdf st' = gas_lines_gdf st ∧ features_added st = false)
  ∧ (features_added st' = true -> features_added st = false ->
     (length (rows (gas_lines_gdf st)) < length (rows (gas_lines_gdf st')))%nat).

(** The collection is left alone when MongoDB is switched off or no
    collection is passed. *)
Definition collection_kept (use : bool) (coll : option Collection)
    (st : Pipeline) : Prop :=
  (use = false ∨ coll = None) -> collection st = coll.

(** The CRS of the gas lines frame is absent or the target CRS all
    along. *)
Definition crs_normal (sr : CRS) (st : Pipeline) : Prop :=
  crs (gas_lines_gdf st) = None ∨ crs (gas_lines_gdf st) = Some sr.

(** The document store cannot raise when it is not called. *)
Definition store_off (use : bool) (st : Pipeline) : Prop :=
  use = false ∨ collection st = None.

(** What the caller has after the call: the returned triple and the
    state of the collection. *)
Record Outcome : Type := mkOutcome {
  out_processed_reports : gset string;
  out_gas_lines_gdf : GeoDataFrame;
  out_features_added : bool;
  out_collection : option Collection;
}.

Definition create_pipeline_features
    (geojson_reports : list (string * GeoDataFrame))
    (txt_reports : list (string * list string))
    (gas_lines_gdf : GeoDataFrame) (spatial_reference : CRS)
    (gas_lines_collection : option Collection)
    (processed_reports : option (gset string)) (use_mongodb : bool)
    : result Outcome :=
  let processed_reports := default ∅ processed_reports in
  (* normalize the CRS of gas_lines_gdf and of the GeoJSON reports *)
  gas_lines_gdf ← normalize_crs gas_lines_gdf spatial_reference;
  geojson_reports ←
    mapM (fun report : string * GeoDataFrame =>
            gdf ← normalize_crs report.2 spatial_reference;
            Ok (report.1, gdf)) geojson_reports;
  let st :=
    mkPipeline processed_reports ∅ gas_lines_gdf false gas_lines_collection in
  st ← fold_result (process_geojson_report spatial_reference use_mongodb)
         geojson_reports st;
  st ← fold_result (process_txt_report spatial_reference use_mongodb)
         txt_reports st;
  let 'mkPipeline processed_reports _ gas_lines_gdf features_added coll := st in
  Ok (mkOutcome processed_reports gas_lines_gdf features_added coll).

End DataLoader.

(** ** A small geometry engine for concrete runs

    A one-dimensional raster: a shape covers a finite set of integer
    cells of a line.  Buffering by a distance grows the cover by the
    whole part of the distance on both sides, difference and intersection
    are those of the covers, and reprojecting between two codes
    translates the cover by the difference of the codes.  EPSG:4326 is
    the geographic system. *)

Module Raster.

Record shape : Type := mkShape {
  kind : GeomKind;
  cover : list Z;
  valid : bool;
}.

(** The whole part of a distance, up to 8. *)
Definition whole (d : float) : nat :=
  length (List.filter (fun k => PrimFloat.leb (PrimFloat.of_uint63 k) d)
            [1; 2; 3; 4; 5; 6; 7; 8]%uint63).

Definition grow (r : nat) (zs : list Z) : list Z :=
  remove_dups
    (flat_map (fun z => map (fun i => (z - Z.of_nat r + Z.of_nat i)%Z)
                            (seq 0 (2 * r + 1))) zs).

Definition shift (c t : CRS) (z : Z) : Z :=
  match c, t with EPSG a, EPSG b => (z + Z.of_N b - Z.of_N a)%Z end.

Definition engine : GeometryEngine := {|
  Geom := shape;
  geom_kind := kind;
  geom_is_valid := valid;
  geom_is_empty := fun g => match cover g with [] => true | _ => false end;
  geom_buffer := fun g d => mkShape Polygon (grow (whole d) (cover g)) true;
  geom_difference := fun a b =>
    mkShape (kind a)
      (List.filter (fun z => negb (bool_decide (z ∈ cover b))) (cover a))
      (valid a);
  geom_intersects := fun a b =>
    existsb (fun z => bool_decide (z ∈ cover b)) (cover a);
  geom_point := fun x y => mkShape Point [Z.of_nat (whole x)] true;
  reproject := fun c t g => mkShape (kind g) (map (shift c t) (cover g)) (valid g);
  is_projected := fun c => negb (bool_decide (c = EPSG 4326));
|}.

Definition ends_with (suffix s : string) : bool :=
  String.prefix (String.rev suffix) (String.rev s).

Definition driver_of (path : string) : result string :=
  if ends_with ".shp" path then Ok "ESRI Shapefile"
  else if ends_with ".geojson" path then Ok "GeoJSON"
  else if ends_with ".gpkg" path then Ok "GPKG"
  else Raise (ValueError "Unsupported file extension").

Definition config : Config := {|
  DEFAULT_BUFFER_DISTANCE_FT := 25%float;
  DEFAULT_CRS := EPSG 32633;
  GEOGRAPHIC_CRS := EPSG 4326;
  BUFFER_LAYER_CRS := EPSG 32610;
  get_driver_from_extension := driver_of;
|}.

(** Repair marks a shape with a non-empty cover valid; a shape without
    cells cannot be repaired. *)
Definition repair (g : option shape) : option shape :=
  match g with
  | Some s =>
      if valid s then Some s
      else match cover s with
           | [] => None
           | _ => Some (mkShape (kind s) (cover s) true)
           end
  | None => None
  end.

Definition helpers : @Helpers engine :=
  @Build_Helpers engine
    repair
    (fun gdf => @log_and_filter_invalid_geometries engine gdf "final")
    (EPSG 3857).

Fixpoint digits (s : string) (acc : N) : option N :=
  match s with
  | EmptyString => Some acc
  | String c s' =>
      match Ascii.is_nat c with
      | Some d => digits s' (10 * acc + N.of_nat d)%N
      | None => None
      end
  end.

Definition number (s : string) : option N :=
  match s with
  | EmptyString => None
  | _ => digits s 0%N
  end.

(** Dates of the form YYYY-MM-DD are read as the number YYYYMMDD. *)
Definition iso_date (fmt s : string) : option Z :=
  if bool_decide (fmt = "%Y-%m-%d") then
    match number (substring 0 4 s), substring 4 1 s, number (substring 5 2 s),
          substring 7 1 s, number (substring 8 2 s), String.length s with
    | Some y, "-", Some m, "-", Some d, 10%nat =>
        Some (Z.of_N (y * 10000 + m * 100 + d))
    | _, _, _, _, _, _ => None
    end
  else None.

Definition ingestion : @Ingestion engine :=
  @Build_Ingestion engine
    iso_date
    (fun _ => None)
    (fun s => (fun n => PrimFloat.of_uint63 (Uint63.of_Z (Z.of_N n))) <$> number s)
    (fun _ current => Some current)
    (list (@Value engine))
    (fun coll name _ _ _ _ => Ok (coll ++ [name])%list).

End Raster.

(** ** Concrete layers on the raster engine *)

Module Examples.
Import Raster.
Section Data.
#[local] Existing Instances engine config helpers ingestion.

Definition utm : option CRS := Some (EPSG 32633).

Definition line_at (z : Z) : shape := mkShape LineString [z] true.
Definition polygon_over (zs : list Z) : shape := mkShape Polygon zs true.
Definition empty_polygon : shape := mkShape Polygon [] true.

(** One gas line on cell 0, and a park that covers the line and the
    right-hand part of its 10 ft buffer. *)
Definition gas_lines : GeoDataFrame :=
  mkGDF ["Name"; "geometry"] [mkRow [VStr "L1"] (Some (line_at 0))] utm.

Definition parks : GeoDataFrame :=
  mkGDF ["geometry"] [mkRow [] (Some (polygon_over [-1; 0; 1; 2; 3]%Z))] utm.

Definition no_parks : GeoDataFrame := mkGDF ["geometry"] [] utm.

Definition pipeline_world : World :=
  mkWorld (<["no_parks.shp" := no_parks]>
             (<["parks.shp" := parks]> (<["gas_lines.shp" := gas_lines]> ∅))) [].

Definition sliver : GeoDataFrame :=
  mkGDF ["Name"; "geometry"]
        [mkRow [VStr "L1"] (Some (polygon_over [-3; -2]%Z))] utm.

(** A buffer layer with a good polygon and an empty one. *)
Definition two_buffers : GeoDataFrame :=
  mkGDF ["Name"; "geometry"]
        [mkRow [VStr "B1"] (Some (polygon_over [4; 5]%Z));
         mkRow [VStr "B2"] (Some empty_polygon)] utm.

Definition one_buffer : GeoDataFrame :=
  mkGDF ["Name"; "geometry"]
        [mkRow [VStr "B1"] (Some (polygon_over [4; 5]%Z))] utm.

Definition hollow_buffer : GeoDataFrame :=
  mkGDF ["Name"; "geometry"] [mkRow [VStr "B2"] (Some empty_polygon)] utm.

Definition line_buffer : GeoDataFrame :=
  mkGDF ["Name"; "geometry"] [mkRow [VStr "B3"] (Some (line_at 7))] utm.

Definition no_buffers : GeoDataFrame := mkGDF ["Name"; "geometry"] [] utm.

(** Planning layers: none, and one that mixes a polygon and a line. *)
Definition empty_planning : GeoDataFrame := mkGDF ["Zone"; "geometry"] [] utm.

Definition mixed_planning : GeoDataFrame :=
  mkGDF ["Zone"; "geometry"]
        [mkRow [VStr "Z1"] (Some (polygon_over [10; 11]%Z));
         mkRow [VStr "Z2"] (Some (line_at 20))] utm.

(** A planning layer of one point, what its conversion with distance 3
    gives, a planning layer of one polygon, and that layer merged with
    [one_buffer]. *)
Definition point_planning : GeoDataFrame :=
  mkGDF ["Zone"; "geometry"]
        [mkRow [VStr "Z3"] (Some (mkShape Point [30%Z] true))] utm.

Definition point_planning_polygons : GeoDataFrame :=
  mkGDF ["Zone"; "geometry"]
        [mkRow [VStr "Z3"] (Some (polygon_over [27; 28; 29; 30; 31; 32; 33]%Z))]
        utm.

Definition polygon_planning : GeoDataFrame :=
  mkGDF ["Zone"; "geometry"]
        [mkRow [VStr "Z1"] (Some (polygon_over [10; 11]%Z))] utm.

Definition merged_layers : GeoDataFrame :=
  mkGDF ["Zone"; "geometry"; "Name"]
        [mkRow [VStr "Z1"; VFloat nan] (Some (polygon_over [10; 11]%Z));
         mkRow [VFloat nan; VStr "B1"] (Some (polygon_over [4; 5]%Z))] utm.

Definition merge_world (buffers planning : GeoDataFrame) : World :=
  mkWorld (<["planning.gpkg" := planning]> (<["buffers.gpkg" := buffers]> ∅)) [].

(** Reports for the ingestion. *)
Definition base_lines : GeoDataFrame := mkGDF SCHEMA_FIELDS [] (Some (EPSG 4326)).

Definition bad_report : GeoDataFrame :=
  mkGDF ["Name"; "geometry"]
        [mkRow [VStr "P9"] (Some (mkShape Point [9%Z] true))] (Some (EPSG 4326)).

(** A report with every required field and a feature without geometry. *)
Definition null_report : GeoDataFrame :=
  mkGDF SCHEMA_FIELDS
        [mkRow [VStr "P1"; VStr "2024-01-15"; VFloat 100; VStr "Steel"] None]
        (Some (EPSG 4326)).

Definition txt_lines : list string :=
  ["Id Name X Y Date PSI Material"; "1 Line7 3 4 2024-01-15 250 Steel"].

(** A collection without documents. *)
Definition no_documents : option (@Collection engine ingestion) :=
  Some ([] : list (@Value engine)).

(** What the ingestion of [txt_lines] returns with the document store
    switched off. *)
Definition ingested_offline : Outcome :=
  mkOutcome {["pipes.txt"]}
    (mkGDF SCHEMA_FIELDS
       [mkRow [VStr "Line7"; VTime 20240115; VFloat 250; VStr "steel"]
              (Some (mkShape Point [3%Z] true))]
       (Some (EPSG 4326)))
    true no_documents.

(** What the ingestion of [bad_report] and [txt_lines] returns. *)
Definition ingested : Outcome :=
  mkOutcome {["bad.geojson"; "pipes.txt"]}
    (mkGDF SCHEMA_FIELDS
       [mkRow [VStr "Line7"; VTime 20240115; VFloat 250; VStr "steel"]
              (Some (mkShape Point [3%Z] true))]
       (Some (EPSG 4326)))
    true (Some [VStr "Line7"]).

End Data.
End Examples.

(** * Properties *)

(** ** Frames *)

Section FrameFacts.
Context `{E : GeometryEngine}.

Lemma set_geometry_same (r : Row) : set_geometry r (geometry r) = r.
Proof. by destruct r. Qed.

Lemma apply_geometry_id (f : option Geom -> option Geom) (gdf : GeoDataFrame) :
  (forall g, f g = g) -> apply_geometry f gdf = gdf.
Proof.
  intros Hf. destruct gdf as [cols rs c]. unfold apply_geometry. simpl. f_equal.
  induction rs as [|r rs IH]; simpl; [done|].
  by rewrite Hf, set_geometry_same, IH.
Qed.

Lemma assign_rows_map (f : option Geom -> option Geom) (rs : list Row) :
  assign_rows rs (map (fun r => f (geometry r)) rs)
  = map (fun r => set_geometry r (f (geometry r))) rs.
Proof. induction rs as [|r rs IH]; simpl; [done|]. by rewrite IH. Qed.

Lemma select_rows_Forall (keep : Row -> bool) (gdf : GeoDataFrame) :
  Forall (fun r => keep r = true) (rows (select keep gdf)).
Proof.
  unfold select. simpl. apply Forall_forall. intros r Hr.
  apply list_elem_of_In, filter_In in Hr. tauto.
Qed.

Lemma valid_nonempty_good (r : Row) :
  is_valid r && negb (is_empty r) = true -> good_row r = true.
Proof.
  unfold good_row, is_valid, is_empty, notnull. by destruct (geometry r).
Qed.

Lemma empty_no_rows (gdf : GeoDataFrame) : rows gdf = [] -> empty gdf = true.
Proof. unfold empty. by intros ->. Qed.

Lemma gdf_eta (gdf : GeoDataFrame) :
  mkGDF (columns gdf) (rows gdf) (crs gdf) = gdf.
Proof. by destruct gdf. Qed.

End FrameFacts.

(** ** buffer_processor.py: buffering and exclusion *)

Ltac bind_ok H :=
  match type of H with
  | (?m ≫= _) = Ok _ =>
      let x := fresh "x" in
      let Hx := fresh "Hx" in
      destruct m as [x|?] eqn:Hx; [simpl in H | discriminate H]
  end.

Section BufferProperties.
Context `{E : GeometryEngine} `{C : Config} `{H : !Helpers}.

Lemma final_sweep_good (gdf : GeoDataFrame) :
  Forall (fun r => good_row r = true)
    (rows (select (fun r => is_valid r && negb (is_empty r)) gdf)).
Proof.
  eapply Forall_impl; [apply select_rows_Forall|].
  intros r Hr. by apply valid_nonempty_good.
Qed.

Lemma log_and_filter_good (gdf : GeoDataFrame) (label : string) :
  Forall (fun r => good_row r = true)
    (rows (log_and_filter_invalid_geometries gdf label)).
Proof. apply select_rows_Forall. Qed.

Lemma subtract_parks_good w buffer_gdf p mp out :
  subtract_parks_from_buffer w buffer_gdf (Some p) mp = Ok out ->
  Forall (fun r => good_row r = true) (rows out).
Proof.
  unfold subtract_parks_from_buffer. intros Hrun. bind_ok Hrun.
  injection Hrun as <-. apply final_sweep_good.
Qed.

Lemma create_buffer_good w path ft parks mp out :
  create_buffer_with_geopandas w path ft parks mp = Ok out ->
  Forall (fun r => good_row r = true) (rows out).
Proof.
  unfold create_buffer_with_geopandas. intros Hrun.
  bind_ok Hrun. bind_ok Hrun.
  match type of Hrun with
  | (if empty ?g then _ else _) = _ => destruct (empty g)
  end.
  { injection Hrun as <-. apply log_and_filter_good. }
  match type of Hrun with
  | (if empty ?g then _ else _) = _ => destruct (empty g)
  end.
  { injection Hrun as <-. apply log_and_filter_good. }
  bind_ok Hrun. injection Hrun as <-. apply final_sweep_good.
Qed.

End BufferProperties.

Section BufferClaims.
Context `{E : GeometryEngine} `{C : Config} `{H : !Helpers}.

Lemma select_all (keep : Row -> bool) (gdf : GeoDataFrame) :
  Forall (fun r => keep r = true) (rows gdf) -> select keep gdf = gdf.
Proof.
  intros Hall. destruct gdf as [cols rs c]. unfold select. simpl in *. f_equal.
  induction Hall as [|r rs Hr _ IH]; simpl; [done|]. by rewrite Hr, IH.
Qed.

Lemma apply_geometry_fixed (f : option Geom -> option Geom) (gdf : GeoDataFrame) :
  Forall (fun r => f (geometry r) = geometry r) (rows gdf) ->
  apply_geometry f gdf = gdf.
Proof.
  intros Hall. destruct gdf as [cols rs c]. unfold apply_geometry. simpl in *.
  f_equal. induction Hall as [|r rs Hr _ IH]; simpl; [done|].
  by rewrite Hr, set_geometry_same, IH.
Qed.

Lemma subtract_nothing (geom : option Geom) : subtract_park_from_geom geom [] = geom.
Proof. reflexivity. Qed.

(** Both execution modes of the subtraction produce the same layer. *)
Lemma subtract_modes (parks_geoms : list (option Geom)) (gdf : GeoDataFrame) :
  assign_geometry gdf
    (parallel_process subtract_park_from_geom_helper
       (map (fun r => (geometry r, parks_geoms)) (rows gdf)))
  = apply_geometry (fun geom => subtract_park_from_geom geom parks_geoms) gdf.
Proof.
  unfold assign_geometry, apply_geometry, parallel_process. f_equal.
  rewrite map_map. simpl.
  apply (assign_rows_map (fun g => subtract_park_from_geom g parks_geoms)).
Qed.

(** Both execution modes of the buffering produce the same layer. *)
Lemma buffering_rows (mp : bool) (d : float) (gdf : GeoDataFrame) :
  rows (buffering mp d gdf)
  = map (fun r => set_geometry r ((fun g => geom_buffer g d) <$> geometry r))
        (rows gdf).
Proof.
  unfold buffering. destruct mp; [|done]. simpl.
  unfold parallel_process. rewrite map_map. simpl.
  apply (assign_rows_map (fun g => (fun g0 => geom_buffer g0 d) <$> g)).
Qed.

(** What the exclusion stage does to the buffers when no park is left. *)
Lemma subtract_parks_no_parks w buffer_gdf p mp parks_gdf :
  load_parks w p (crs buffer_gdf) = Ok parks_gdf ->
  rows parks_gdf = [] ->
  subtract_parks_from_buffer w buffer_gdf (Some p) mp
  = Ok (select (fun r => is_valid r && negb (is_empty r))
          (apply_geometry fix_geometry
             (log_and_filter_invalid_geometries
                (apply_geometry fix_geometry (select notnull buffer_gdf))
                "Buffers"))).
Proof.
  intros Hload Hnone. unfold subtract_parks_from_buffer.
  rewrite Hload. simpl. rewrite Hnone. simpl.
  destruct mp.
  - rewrite subtract_modes. by rewrite (apply_geometry_id _ _ subtract_nothing).
  - by rewrite (apply_geometry_id _ _ subtract_nothing).
Qed.

(** C8, amended: every row of the frame returned by
    [create_buffer_with_geopandas], and of the frame returned by
    [subtract_parks_from_buffer] when an exclusion path is given, has a
    non-null, valid, non-empty geometry; without a path
    [subtract_parks_from_buffer] returns its input as it is. *)
Theorem C8_returned_rows_valid w path ft parks mp buffer_gdf p out :
  create_buffer_with_geopandas w path ft parks mp = Ok out
  ∨ subtract_parks_from_buffer w buffer_gdf (Some p) mp = Ok out ->
  Forall (fun r => good_row r = true) (rows out)
  ∧ subtract_parks_from_buffer w buffer_gdf None mp = Ok buffer_gdf.
Proof.
  intros [Hrun|Hrun]; (split; [|done]).
  - by eapply create_buffer_good.
  - by eapply subtract_parks_good.
Qed.

(** C5, amended: without an exclusion path [subtract_parks_from_buffer]
    returns its input; when the exclusion layer has no valid polygon left
    after filtering, it returns the input rows that are non-null and,
    once repaired, valid and non-empty, each with its geometry repaired;
    these are the input rows themselves when every input geometry is
    non-null, valid, non-empty and left alone by the repair. *)
Theorem C5_subtract_nothing w buffer_gdf p mp parks_gdf :
  load_parks w p (crs buffer_gdf) = Ok parks_gdf ->
  rows parks_gdf = [] ->
  subtract_parks_from_buffer w buffer_gdf None mp = Ok buffer_gdf
  ∧ subtract_parks_from_buffer w buffer_gdf (Some p) mp
    = Ok (select (fun r => is_valid r && negb (is_empty r))
            (apply_geometry fix_geometry
               (log_and_filter_invalid_geometries
                  (apply_geometry fix_geometry (select notnull buffer_gdf))
                  "Buffers")))
  ∧ (Forall (fun r => good_row r = true
                      ∧ fix_geometry (geometry r) = geometry r)
            (rows buffer_gdf) ->
     subtract_parks_from_buffer w buffer_gdf (Some p) mp = Ok buffer_gdf).
Proof.
  intros Hload Hnone. split; [done|]. split.
  - by eapply subtract_parks_no_parks.
  - intros Hgood.
    rewrite (subtract_parks_no_parks _ _ _ _ _ Hload Hnone).
    assert (Hfix : Forall (fun r => fix_geometry (geometry r) = geometry r)
                     (rows buffer_gdf))
      by (eapply Forall_impl; [exact Hgood|]; by intros r [_ ?]).
    assert (Hg : Forall (fun r => good_row r = true) (rows buffer_gdf))
      by (eapply Forall_impl; [exact Hgood|]; by intros r [? _]).
    rewrite (select_all notnull).
    2:{ eapply Forall_impl; [exact Hg|]. intros r Hr. unfold good_row in Hr.
        by destruct (notnull r). }
    rewrite (apply_geometry_fixed _ _ Hfix).
    unfold log_and_filter_invalid_geometries.
    rewrite (select_all (fun r => notnull r && is_valid r && negb (is_empty r))
               _ Hg).
    rewrite (apply_geometry_fixed _ _ Hfix).
    rewrite select_all; [done|].
    eapply Forall_impl; [exact Hg|]. intros r Hr. unfold good_row in Hr.
    destruct (notnull r); [|done]. exact Hr.
Qed.


End BufferClaims.

(** Concrete runs of the buffer pipeline on the raster engine. *)

Section BufferRuns.
Import Raster Examples.
#[local] Existing Instances engine config helpers.

(** C1 at the failing input: the park covers the gas line itself, the
    buffer that is left of it (cells -3 and -2) is returned although it
    intersects no geometry of the source layer. *)
Lemma C1_disjoint_sliver_returned :
  create_buffer_with_geopandas pipeline_world "gas_lines.shp" (Some 10%float)
    (Some "parks.shp") false = Ok sliver
  ∧ rows sliver ≠ []
  ∧ Forall (fun r => buffer_intersects_gas_lines (geometry r) gas_lines = false)
           (rows sliver).
Proof.
  split; [vm_compute; reflexivity|]. split; [discriminate|].
  repeat constructor.
Qed.

Lemma C8_witness :
  Forall (fun r => good_row r = true) (rows sliver)
  ∧ subtract_parks_from_buffer pipeline_world two_buffers None false
    = Ok two_buffers.
Proof.
  apply (C8_returned_rows_valid pipeline_world "gas_lines.shp" (Some 10%float)
           (Some "parks.shp") false two_buffers "parks.shp" sliver).
  left. vm_compute. reflexivity.
Defined.

(** C8 as stated fails: without an exclusion path the input comes back as
    it is, here with its empty polygon. *)
Lemma C8_counterexample :
  ~ (forall out,
       subtract_parks_from_buffer pipeline_world two_buffers None false = Ok out ->
       Forall (fun r => good_row r = true) (rows out)).
Proof.
  intros Hall. specialize (Hall two_buffers eq_refl).
  apply Forall_cons_1 in Hall as [_ Hall].
  apply Forall_cons_1 in Hall as [Hbad _]. discriminate Hbad.
Qed.

Lemma C5_witness :
  subtract_parks_from_buffer pipeline_world one_buffer None false = Ok one_buffer
  ∧ subtract_parks_from_buffer pipeline_world one_buffer (Some "no_parks.shp") false
    = Ok (select (fun r => is_valid r && negb (is_empty r))
            (apply_geometry fix_geometry
               (log_and_filter_invalid_geometries
                  (apply_geometry fix_geometry (select notnull one_buffer))
                  "Buffers")))
  ∧ (Forall (fun r => good_row r = true
                      ∧ fix_geometry (geometry r) = geometry r)
            (rows one_buffer) ->
     subtract_parks_from_buffer pipeline_world one_buffer (Some "no_parks.shp") false
     = Ok one_buffer).
Proof.
  apply (C5_subtract_nothing pipeline_world one_buffer "no_parks.shp" false
           no_parks).
  - vm_compute. reflexivity.
  - reflexivity.
Defined.

(** C5 as stated fails: the exclusion layer has no geometry at all, yet
    the row with the empty polygon is dropped from the buffers. *)
Lemma C5_counterexample :
  (exists parks_gdf,
     load_parks pipeline_world "no_parks.shp" (crs two_buffers) = Ok parks_gdf
     ∧ rows parks_gdf = [])
  ∧ subtract_parks_from_buffer pipeline_world two_buffers (Some "no_parks.shp")
      false = Ok one_buffer
  ∧ map geometry (rows one_buffer) ≠ map geometry (rows two_buffers).
Proof.
  split; [exists no_parks; split; [vm_compute; reflexivity|reflexivity]|].
  split; [vm_compute; reflexivity|]. discriminate.
Qed.

End BufferRuns.

(** ** buffer_processor.py: the merge into the planning layer *)

Section MergeProperties.
Context `{E : GeometryEngine} `{C : Config} `{H : !Helpers}.

(** The run of the merge past the empty check, with the monad unfolded:
    every exception leaves the files as they were, and the only write is
    the last step. *)
Lemma merge_run buf plan pbd ocrs w bgdf fgdf :
  read_file w buf = Ok bgdf ->
  read_file w plan = Ok fgdf ->
  empty bgdf = false ->
  merge_buffers_into_planning_file buf plan pbd ocrs w
  = match resolve_crs bgdf fgdf with
    | Raise e => (w, Raise e)
    | Ok (b, f) =>
      match harmonize_geometry b f pbd with
      | Raise e => (w, Raise e)
      | Ok f' =>
        match concat (List.filter (fun df => negb (empty df)) [clean f'; clean b]) with
        | Raise e => (w, Raise e)
        | Ok merged =>
          match to_crs (mkGDF (columns merged) (rows merged) (crs (clean f')))
                       (resolve_output_crs ocrs (clean b) (clean f')) with
          | Raise e => (w, Raise e)
          | Ok m =>
            if empty m then (w, Ok (mkGDF ["geometry"] [] (crs (clean f'))))
            else match get_driver_from_extension plan with
                 | Raise e => (w, Raise e)
                 | Ok driver => (to_file w plan driver m, Ok m)
                 end
          end
        end
      end
    end.
Proof.
  intros Hb Hf He.
  unfold merge_buffers_into_planning_file, mbind, IO_bind, io_read_file, lift,
    mret, IO_ret, io_to_file.
  rewrite Hb, Hf, He.
  destruct (resolve_crs bgdf fgdf) as [[b f]|e]; [|done].
  destruct (harmonize_geometry b f pbd) as [f'|e]; [|done].
  destruct (concat _) as [merged|e]; [|done].
  destruct (to_crs _ _) as [m|e]; [|done].
  destruct (empty m); [done|].
  by destruct (get_driver_from_extension plan).
Qed.

(** C2: when the buffer layer read from [unique_output_buffer] is empty,
    the merge returns the planning layer exactly as loaded, and the files
    and the log of writes are what they were. *)
Theorem C2_empty_buffer_layer buf plan pbd ocrs w bgdf fgdf :
  read_file w buf = Ok bgdf ->
  empty bgdf = true ->
  read_file w plan = Ok fgdf ->
  merge_buffers_into_planning_file buf plan pbd ocrs w = (w, Ok fgdf).
Proof.
  intros Hb He Hf.
  unfold merge_buffers_into_planning_file, mbind, IO_bind, io_read_file, mret,
    IO_ret.
  by rewrite Hb, Hf, He.
Qed.

Lemma same_outline_refl a : same_outline a a.
Proof. by split. Qed.

Lemma same_outline_trans a b c :
  same_outline a b -> same_outline b c -> same_outline a c.
Proof. intros [? ?] [? ?]. split; congruence. Qed.

Lemma same_outline_empty a b : same_outline a b -> empty a = empty b.
Proof.
  intros [Hc Hr]. unfold empty. rewrite Hc.
  destruct (rows a), (rows b); simpl in Hr; try discriminate; done.
Qed.

Lemma same_outline_unique a b :
  same_outline a b -> unique_geom_types a = unique_geom_types b.
Proof. intros [_ Hr]. unfold unique_geom_types. by rewrite Hr. Qed.

Lemma forallb_isin_types allowed (rs : list Row) :
  forallb (isin allowed) rs
  = forallb (fun t => match t with
                      | Some k => bool_decide (k ∈ allowed)
                      | None => false
                      end) (map geom_type rs).
Proof. induction rs as [|r rs IH]; simpl; [done|]. by rewrite IH. Qed.

Lemma same_outline_isin allowed a b :
  same_outline a b ->
  forallb (isin allowed) (rows a) = forallb (isin allowed) (rows b).
Proof. intros [_ Hr]. by rewrite !forallb_isin_types, Hr. Qed.

Lemma set_crs_outline gdf c : same_outline (set_crs gdf c) gdf.
Proof. by split. Qed.

Section KindPreserved.
(** Reprojection moves coordinates and keeps the type of a geometry. *)
Hypothesis reproject_kind :
  forall c t g, geom_kind (reproject c t g) = geom_kind g.

Lemma to_crs_outline gdf t out : to_crs gdf t = Ok out -> same_outline out gdf.
Proof using reproject_kind.
  unfold to_crs. destruct (crs gdf) as [c|]; [|done].
  destruct t as [t|]; [|done].
  destruct (decide (c = t)); intros [= <-]; [apply same_outline_refl|].
  split; [done|]. simpl. rewrite map_map. apply map_ext. intros r.
  unfold geom_type. simpl. destruct (geometry r); simpl; [|done].
  by rewrite reproject_kind.
Qed.

Lemma validate_outline gdf t label out :
  validate_and_reproject_crs gdf t label = Ok out -> same_outline out gdf.
Proof using reproject_kind.
  unfold validate_and_reproject_crs. intros Hrun.
  assert (Hdef : same_outline
            (match crs gdf with
             | Some _ => gdf
             | None => set_crs gdf GEOGRAPHIC_CRS
             end) gdf)
    by (destruct (crs gdf); [apply same_outline_refl|apply set_crs_outline]).
  destruct t as [t|].
  - destruct (decide _).
    + by injection Hrun as <-.
    + eapply same_outline_trans; [by eapply to_crs_outline|done].
  - by injection Hrun as <-.
Qed.

Lemma ensure_projected_outline gdf out :
  ensure_projected_crs gdf = Ok out -> same_outline out gdf.
Proof using reproject_kind.
  unfold ensure_projected_crs. destruct (crs gdf) as [c|].
  - destruct (is_projected c).
    + intros [= <-]. apply same_outline_refl.
    + apply to_crs_outline.
  - intros [= <-]. apply same_outline_refl.
Qed.

Lemma resolve_crs_outline bgdf fgdf b f :
  resolve_crs bgdf fgdf = Ok (b, f) ->
  same_outline b bgdf ∧ same_outline f fgdf.
Proof using reproject_kind.
  unfold resolve_crs. intros Hrun.
  bind_ok Hrun. bind_ok Hrun. bind_ok Hrun. bind_ok Hrun.
  injection Hrun as <- <-.
  apply validate_outline in Hx. apply ensure_projected_outline in Hx0, Hx1.
  assert (Hf : same_outline x1 fgdf).
  { eapply same_outline_trans; [exact Hx1|].
    destruct (crs fgdf); [apply same_outline_refl|apply set_crs_outline]. }
  assert (Hb : same_outline x0 bgdf).
  { eapply same_outline_trans; [exact Hx0|].
    eapply same_outline_trans; [exact Hx|].
    destruct (crs bgdf); [apply same_outline_refl|apply set_crs_outline]. }
  split; [|done].
  destruct (decide _).
  - apply to_crs_outline in Hx2. by eapply same_outline_trans.
  - by injection Hx2 as <-.
Qed.

End KindPreserved.

End MergeProperties.

Section MergeStages.
Context `{E : GeometryEngine} `{C : Config} `{H : !Helpers}.

Lemma empty_false (gdf : GeoDataFrame) :
  empty gdf = false <-> rows gdf ≠ [] ∧ columns gdf ≠ [].
Proof.
  unfold empty. destruct (rows gdf), (columns gdf); split; try done.
  all: intros [? ?]; done.
Qed.

Lemma to_crs_crs gdf t out : to_crs gdf t = Ok out -> crs out = t.
Proof.
  unfold to_crs. destruct (crs gdf) as [c|] eqn:Hc; [|done].
  destruct t as [t|]; [|done].
  destruct (decide (c = t)) as [->|]; by intros [= <-].
Qed.

Lemma to_crs_total gdf c t :
  crs gdf = Some c -> exists out, to_crs gdf (Some t) = Ok out.
Proof.
  intros Hc. unfold to_crs. rewrite Hc. destruct (decide (c = t)); eauto.
Qed.

Lemma to_crs_empty gdf t out : to_crs gdf t = Ok out -> empty out = empty gdf.
Proof.
  unfold to_crs. destruct (crs gdf) as [c|]; [|done].
  destruct t as [t|]; [|done].
  destruct (decide (c = t)); intros [= <-]; [done|].
  unfold empty. simpl. by destruct (rows gdf).
Qed.

Lemma validate_total gdf t label :
  exists out, validate_and_reproject_crs gdf (Some t) label = Ok out
              ∧ crs out = Some t.
Proof.
  unfold validate_and_reproject_crs.
  set (g := match crs gdf with Some _ => gdf | None => _ end).
  assert (Hg : exists c, crs g = Some c)
    by (subst g; destruct (crs gdf) eqn:Hc; simpl; eauto).
  destruct Hg as [c Hc].
  destruct (decide (crs g = Some t)); [eauto|].
  destruct (to_crs_total g c t Hc) as [out Hout].
  exists out. split; [done|]. by eapply to_crs_crs.
Qed.

Lemma ensure_projected_total gdf c :
  crs gdf = Some c ->
  exists out c', ensure_projected_crs gdf = Ok out ∧ crs out = Some c'
                 ∧ c' = (if is_projected c then c else metric_crs).
Proof.
  intros Hc. unfold ensure_projected_crs. rewrite Hc.
  destruct (is_projected c); [eauto|].
  destruct (to_crs_total gdf c metric_crs Hc) as [out Hout].
  exists out, metric_crs. split; [done|]. split; [|done]. by eapply to_crs_crs.
Qed.

(** The stage CRSResolved never raises, and leaves both layers in the
    working CRS. *)
Lemma resolve_crs_total bgdf fgdf :
  exists b f, resolve_crs bgdf fgdf = Ok (b, f)
              ∧ crs b = Some (working_crs fgdf)
              ∧ crs f = Some (working_crs fgdf).
Proof.
  unfold resolve_crs, working_crs.
  set (f0 := match crs fgdf with Some _ => fgdf | None => _ end).
  set (b0 := match crs bgdf with Some _ => bgdf | None => _ end).
  assert (Hf0 : crs f0 = Some (default GEOGRAPHIC_CRS (crs fgdf)))
    by (subst f0; by destruct (crs fgdf) eqn:Hc).
  rewrite Hf0.
  destruct (validate_total b0 (default GEOGRAPHIC_CRS (crs fgdf)) "Buffer layer")
    as (b1 & Hb1 & Hc1).
  rewrite Hb1. simpl.
  destruct (ensure_projected_total b1 _ Hc1) as (b2 & cb & Hb2 & Hcb & Hcb').
  rewrite Hb2. simpl.
  destruct (ensure_projected_total f0 _ Hf0) as (f1 & cf & Hf1 & Hcf & Hcf').
  rewrite Hf1. simpl.
  assert (cb = cf) as -> by congruence.
  destruct (decide (crs b2 ≠ crs f1)) as [Hne|_]; [congruence|].
  simpl. exists b2, f1. split; [done|]. by subst cf.
Qed.

Lemma assign_geometry_crs gdf gs : crs (assign_geometry gdf gs) = crs gdf.
Proof. done. Qed.

Lemma harmonize_crs b f pbd f' :
  harmonize_geometry b f pbd = Ok f' -> crs f' = crs f.
Proof.
  unfold harmonize_geometry. destruct (negb (forallb _ _)); [done|].
  destruct (negb (empty f)); [|by intros [= <-]].
  destruct (unique_geom_types f) as [|k [|? ?]]; [done| |done].
  destruct (bool_decide _); [by intros [= <-]|].
  destruct (bool_decide _); [|done].
  unfold buffer_to_polygons. intros Hrun. bind_ok Hrun. bind_ok Hrun.
  by injection Hrun as <-.
Qed.

Lemma harmonize_empty_planning b f pbd f' :
  empty f = true -> harmonize_geometry b f pbd = Ok f' -> f' = f.
Proof.
  unfold harmonize_geometry. intros ->. simpl.
  destruct (negb (forallb _ _)); [done|]. by intros [= <-].
Qed.

(** The three hard schema violations all end the stage
    GeometryHarmonized with a ValueError. *)
Lemma harmonize_raises b f pbd :
  forallb (isin [Polygon; MultiPolygon]) (rows b) = false
  ∨ (empty f = false ∧ length (unique_geom_types f) ≠ 1%nat)
  ∨ (empty f = false
     ∧ exists k, unique_geom_types f = [k]
                 ∧ k ∉ [Some Polygon; Some MultiPolygon; Some Point;
                        Some LineString]) ->
  exists msg, harmonize_geometry b f pbd = Raise (ValueError msg).
Proof.
  unfold harmonize_geometry.
  destruct (forallb (isin [Polygon; MultiPolygon]) (rows b)) eqn:Hpoly; simpl;
    [|eauto].
  intros [Hno|[[He Hlen]|[He (k & Hk & Hnot)]]]; [done| |]; rewrite He; simpl.
  - destruct (unique_geom_types f) as [|k [|? ?]]; [eauto|done|eauto].
  - rewrite Hk. rewrite !bool_decide_eq_false_2; [eauto| |].
    + intros Hin. apply Hnot. rewrite !elem_of_cons in *. tauto.
    + intros Hin. apply Hnot. rewrite !elem_of_cons in *. tauto.
Qed.

Lemma clean_crs gdf : crs (clean gdf) = crs gdf.
Proof. done. Qed.

Lemma clean_columns gdf : columns (clean gdf) = columns gdf.
Proof. done. Qed.

Lemma clean_empty gdf : empty gdf = true -> empty (clean gdf) = true.
Proof.
  destruct gdf as [cols rs c].
  unfold empty, clean, select, apply_geometry. cbn [rows columns].
  destruct rs as [|r rs]; [done|].
  destruct cols; [|discriminate].
  intros _. by destruct (List.filter _ _).
Qed.

Lemma concat2_nonempty a b : empty a = false -> empty (concat2 a b) = false.
Proof.
  intros [Hr Hc]%empty_false. apply empty_false. unfold concat2. simpl.
  split.
  - destruct (rows a); [done|]. done.
  - destruct (columns a); [done|]. done.
Qed.

Lemma concat_nonempty (frames : list GeoDataFrame) merged :
  concat (List.filter (fun df => negb (empty df)) frames) = Ok merged ->
  empty merged = false.
Proof.
  unfold concat.
  destruct (List.filter _ frames) as [|a rest] eqn:Hfil; [done|].
  intros [= <-].
  assert (Ha : empty a = false).
  { assert (Hin : In a (List.filter (fun df => negb (empty df)) frames))
      by (rewrite Hfil; by left).
    apply filter_In in Hin as [_ Hin]. by destruct (empty a). }
  clear Hfil. revert a Ha.
  induction rest as [|x rest IH]; intros a Ha; simpl; [done|].
  apply IH. by apply concat2_nonempty.
Qed.

(** X2: past the empty check, a merge that returns has written what it
    returns, and what it returns is not empty: the branch that would
    return an empty frame without writing is never taken. *)
Lemma merge_returns_written buf plan pbd ocrs w bgdf fgdf w' out :
  read_file w buf = Ok bgdf ->
  read_file w plan = Ok fgdf ->
  empty bgdf = false ->
  merge_buffers_into_planning_file buf plan pbd ocrs w = (w', Ok out) ->
  empty out = false
  ∧ exists driver, get_driver_from_extension plan = Ok driver
                   ∧ w' = to_file w plan driver out.
Proof.
  intros Hb Hf He. rewrite (merge_run _ _ _ _ _ _ _ Hb Hf He).
  destruct (resolve_crs bgdf fgdf) as [[b f]|e]; [|done].
  destruct (harmonize_geometry b f pbd) as [f'|e]; [|done].
  destruct (concat _) as [merged|e] eqn:Hcat; [|done].
  apply concat_nonempty in Hcat.
  destruct (to_crs _ _) as [m|e] eqn:Hto; [|done].
  apply to_crs_empty in Hto.
  assert (Hm : empty m = false).
  { rewrite Hto. unfold empty in *. simpl. exact Hcat. }
  rewrite Hm.
  destruct (get_driver_from_extension plan) as [driver|e]; [|done].
  intros [= <- <-]. split; [done|]. eauto.
Qed.



End MergeStages.

Section MergeClaims.
Context `{E : GeometryEngine} `{C : Config} `{H : !Helpers}.

Lemma validate_empty gdf t label out :
  validate_and_reproject_crs gdf t label = Ok out -> empty out = empty gdf.
Proof.
  unfold validate_and_reproject_crs.
  set (g := match crs gdf with Some _ => gdf | None => _ end).
  assert (Hg : empty g = empty gdf) by (subst g; by destruct (crs gdf)).
  destruct t as [t|]; [|by intros [= <-]].
  destruct (decide _); [by intros [= <-]|].
  intros Hto%to_crs_empty. congruence.
Qed.

Lemma ensure_projected_empty gdf out :
  ensure_projected_crs gdf = Ok out -> empty out = empty gdf.
Proof.
  unfold ensure_projected_crs. destruct (crs gdf) as [c|]; [|by intros [= <-]].
  destruct (is_projected c); [by intros [= <-]|]. apply to_crs_empty.
Qed.

Lemma resolve_crs_empty bgdf fgdf b f :
  resolve_crs bgdf fgdf = Ok (b, f) -> empty f = empty fgdf.
Proof.
  unfold resolve_crs. intros Hrun.
  bind_ok Hrun. bind_ok Hrun. bind_ok Hrun. bind_ok Hrun.
  injection Hrun as _ <-.
  apply ensure_projected_empty in Hx1. rewrite Hx1. by destruct (crs fgdf).
Qed.

(** C3, amended: when the buffer layer is not empty, and it contains a
    geometry that is not a Polygon or MultiPolygon, or the non-empty
    planning layer has more than one distinct geometry type, or its one
    type is none of Polygon, MultiPolygon, Point and LineString, the merge
    raises a ValueError and writes nothing. *)
Theorem C3_hard_schema_errors buf plan pbd ocrs w bgdf fgdf :
  (forall c t g, geom_kind (reproject c t g) = geom_kind g) ->
  read_file w buf = Ok bgdf ->
  read_file w plan = Ok fgdf ->
  empty bgdf = false ->
  forallb (isin [Polygon; MultiPolygon]) (rows bgdf) = false
  ∨ (empty fgdf = false ∧ length (unique_geom_types fgdf) ≠ 1%nat)
  ∨ (empty fgdf = false
     ∧ exists k, unique_geom_types fgdf = [k]
                 ∧ k ∉ [Some Polygon; Some MultiPolygon; Some Point;
                        Some LineString]) ->
  exists msg,
    merge_buffers_into_planning_file buf plan pbd ocrs w
    = (w, Raise (ValueError msg)).
Proof.
  intros Hkind Hb Hf He Hcond. rewrite (merge_run _ _ _ _ _ _ _ Hb Hf He).
  destruct (resolve_crs_total bgdf fgdf) as (b & f & Hres & _ & _).
  rewrite Hres.
  destruct (resolve_crs_outline Hkind _ _ _ _ Hres) as [Hob Hof].
  destruct (harmonize_raises b f pbd) as [msg Hmsg].
  { rewrite (same_outline_isin _ _ _ Hob), (same_outline_empty _ _ Hof),
      (same_outline_unique _ _ Hof). exact Hcond. }
  rewrite Hmsg. eauto.
Qed.

(** C7, amended: past the empty check, a merge that returns has
    reprojected the merged layer to [output_crs] when given, else to the
    CRS of the cleaned buffer layer when that is non-empty, else to that
    of the cleaned planning layer; both layers are by then in the working
    CRS of the planning layer, so without [output_crs] this is the working
    CRS either way.  For an empty planning layer the result is the buffer
    layer after CRS resolution and cleaning (repaired; null, invalid and
    empty geometries dropped), reprojected to the resolved CRS. *)
Theorem C7_output_crs buf plan pbd ocrs w bgdf fgdf w' out :
  read_file w buf = Ok bgdf ->
  read_file w plan = Ok fgdf ->
  empty bgdf = false ->
  merge_buffers_into_planning_file buf plan pbd ocrs w = (w', Ok out) ->
  exists b f f',
    resolve_crs bgdf fgdf = Ok (b, f)
    ∧ harmonize_geometry b f pbd = Ok f'
    ∧ crs (clean b) = Some (working_crs fgdf)
    ∧ crs (clean f') = Some (working_crs fgdf)
    ∧ crs out = resolve_output_crs ocrs (clean b) (clean f')
    ∧ crs out = Some (default (working_crs fgdf) ocrs)
    ∧ (empty fgdf = true -> to_crs (clean b) (crs out) = Ok out).
Proof.
  intros Hb Hf He. rewrite (merge_run _ _ _ _ _ _ _ Hb Hf He).
  destruct (resolve_crs_total bgdf fgdf) as (b & f & Hres & Hcb & Hcf).
  rewrite Hres.
  destruct (harmonize_geometry b f pbd) as [f'|e] eqn:Hhar; [|done].
  assert (Hcf' : crs (clean f') = Some (working_crs fgdf))
    by (rewrite clean_crs, (harmonize_crs _ _ _ _ Hhar); exact Hcf).
  assert (Hcb' : crs (clean b) = Some (working_crs fgdf))
    by (by rewrite clean_crs).
  destruct (concat _) as [merged|e] eqn:Hcat; [|done].
  destruct (to_crs _ _) as [m|e] eqn:Hto; [|done].
  assert (Hm : empty m = false).
  { rewrite (to_crs_empty _ _ _ Hto). apply concat_nonempty in Hcat.
    unfold empty in *. exact Hcat. }
  rewrite Hm.
  destruct (get_driver_from_extension plan) as [driver|e]; [|done].
  intros [= _ <-]. exists b, f, f'.
  assert (Hout : crs m = resolve_output_crs ocrs (clean b) (clean f'))
    by (by eapply to_crs_crs).
  assert (Hres' : resolve_output_crs ocrs (clean b) (clean f')
                  = Some (default (working_crs fgdf) ocrs)).
  { unfold resolve_output_crs. destruct ocrs; [done|].
    rewrite Hcb', Hcf'. by destruct (negb _). }
  do 5 (split; [done|]). split; [congruence|].
  intros Hempty.
  assert (Hef : empty f = true)
    by (by rewrite (resolve_crs_empty _ _ _ _ Hres)).
  apply (harmonize_empty_planning _ _ _ _ Hef) in Hhar as ->.
  simpl in Hcat. rewrite (clean_empty _ Hef) in Hcat. simpl in Hcat.
  destruct (empty (clean b)); simpl in Hcat; [done|].
  injection Hcat as <-.
  rewrite Hcf', <- Hcb', gdf_eta in Hto. by rewrite Hout.
Qed.

End MergeClaims.

(** Concrete runs of the merge on the raster engine. *)

Section MergeRuns.
Import Raster Examples.
#[local] Existing Instances engine config helpers.

Lemma C2_witness :
  merge_buffers_into_planning_file "buffers.gpkg" "planning.gpkg" 10 None
    (merge_world no_buffers mixed_planning)
  = (merge_world no_buffers mixed_planning, Ok mixed_planning).
Proof.
  apply (C2_empty_buffer_layer "buffers.gpkg" "planning.gpkg" 10%float None
           (merge_world no_buffers mixed_planning) no_buffers mixed_planning);
    reflexivity.
Defined.

(** C3 as stated fails: with an empty buffer layer the merge returns the
    planning layer, mixed geometry types and all, and raises nothing. *)
Lemma C3_counterexample :
  empty mixed_planning = false
  ∧ length (unique_geom_types mixed_planning) = 2%nat
  ∧ merge_buffers_into_planning_file "buffers.gpkg" "planning.gpkg" 10 None
      (merge_world no_buffers mixed_planning)
    = (merge_world no_buffers mixed_planning, Ok mixed_planning).
Proof. repeat split; vm_compute; reflexivity. Qed.

Lemma C3_witness :
  exists msg,
    merge_buffers_into_planning_file "buffers.gpkg" "planning.gpkg" 10 None
      (merge_world line_buffer mixed_planning)
    = (merge_world line_buffer mixed_planning, Raise (ValueError msg)).
Proof.
  apply (C3_hard_schema_errors "buffers.gpkg" "planning.gpkg" 10%float None
           (merge_world line_buffer mixed_planning) line_buffer mixed_planning).
  - intros c t g. reflexivity.
  - reflexivity.
  - reflexivity.
  - reflexivity.
  - left. reflexivity.
Defined.

(** C4 at the failing input: the only buffer is an empty polygon (a
    GeoPackage can hold one) and the planning layer has no rows, so
    nothing is left after cleaning;
    [pd.concat] raises on the empty list of frames before the guard for an
    empty merged frame is reached. *)
Lemma C4_nothing_left_raises :
  empty hollow_buffer = false
  ∧ merge_buffers_into_planning_file "buffers.gpkg" "planning.gpkg" 10 None
      (merge_world hollow_buffer empty_planning)
    = (merge_world hollow_buffer empty_planning,
       Raise (ValueError "No objects to concatenate")).
Proof. split; vm_compute; reflexivity. Qed.

(** C7 as stated fails: the planning layer is empty and the buffer layer
    is not, yet the result is not the buffer layer reprojected to any
    CRS, because the row with the empty polygon was dropped. *)
Lemma C7_counterexample :
  empty empty_planning = true
  ∧ empty two_buffers = false
  ∧ merge_buffers_into_planning_file "buffers.gpkg" "planning.gpkg" 10 None
      (merge_world two_buffers empty_planning)
    = (to_file (merge_world two_buffers empty_planning) "planning.gpkg"
         "GPKG" one_buffer, Ok one_buffer)
  ∧ forall c, to_crs two_buffers c ≠ Ok one_buffer.
Proof.
  repeat split; try (vm_compute; reflexivity).
  intros c Hto. unfold to_crs in Hto. simpl in Hto.
  destruct c as [c|]; [|done].
  destruct (decide _); discriminate Hto.
Qed.

Lemma C7_witness :
  exists b f f',
    resolve_crs one_buffer empty_planning = Ok (b, f)
    ∧ harmonize_geometry b f 10 = Ok f'
    ∧ crs (clean b) = Some (working_crs empty_planning)
    ∧ crs (clean f') = Some (working_crs empty_planning)
    ∧ crs one_buffer = resolve_output_crs None (clean b) (clean f')
    ∧ crs one_buffer = Some (default (working_crs empty_planning) None)
    ∧ (empty empty_planning = true -> to_crs (clean b) (crs one_buffer)
                                      = Ok one_buffer).
Proof.
  apply (C7_output_crs "buffers.gpkg" "planning.gpkg" 10%float None
           (merge_world one_buffer empty_planning) one_buffer empty_planning
           (to_file (merge_world one_buffer empty_planning) "planning.gpkg"
              "GPKG" one_buffer) one_buffer).
  - reflexivity.
  - reflexivity.
  - reflexivity.
  - vm_compute. reflexivity.
Defined.

Lemma merge_returns_written_witness :
  empty one_buffer = false
  ∧ exists driver,
      get_driver_from_extension "planning.gpkg" = Ok driver
      ∧ to_file (merge_world one_buffer empty_planning) "planning.gpkg"
          "GPKG" one_buffer
        = to_file (merge_world one_buffer empty_planning) "planning.gpkg" driver
            one_buffer.
Proof.
  apply (merge_returns_written "buffers.gpkg" "planning.gpkg" 10%float None
           (merge_world one_buffer empty_planning) one_buffer empty_planning
           (to_file (merge_world one_buffer empty_planning) "planning.gpkg"
              "GPKG" one_buffer) one_buffer).
  - reflexivity.
  - reflexivity.
  - reflexivity.
  - vm_compute. reflexivity.
Defined.



End MergeRuns.

(** ** data_loader.py *)

Section DataLoaderProperties.
Context `{E : GeometryEngine} `{I : !Ingestion}.

Lemma lower_ascii_idem (c : ascii) : lower_ascii (lower_ascii c) = lower_ascii c.
Proof. destruct c as [[] [] [] [] [] [] [] []]; reflexivity. Qed.

Lemma lower_ascii_not_upper (c : ascii) :
  ~ (65 <= nat_of_ascii (lower_ascii c) <= 90)%nat.
Proof. destruct c as [[] [] [] [] [] [] [] []]; vm_compute; lia. Qed.

Lemma lower_idem (s : string) : lower (lower s) = lower s.
Proof.
  induction s as [|c s IH]; simpl; [done|]. by rewrite lower_ascii_idem, IH.
Qed.

Lemma lower_length (s : string) : String.length (lower s) = String.length s.
Proof. induction s as [|c s IH]; simpl; [done|]. by rewrite IH. Qed.

Lemma lower_get (s : string) (i : nat) :
  String.get i (lower s) = lower_ascii <$> String.get i s.
Proof.
  revert i. induction s as [|c s IH]; intros i; simpl; [done|].
  destruct i; simpl; [done|]. apply IH.
Qed.


End DataLoaderProperties.

Section PipelineProperties.
Context `{E : GeometryEngine} `{I : !Ingestion}.

Lemma add_feature_reports use st new_feature name date psi material point st' :
  add_feature use st new_feature name date psi material point = Ok st' ->
  processed_reports st' = processed_reports st.
Proof.
  unfold add_feature. intros Hrun. bind_ok Hrun.
  destruct (negb _); by injection Hrun as <-.
Qed.

Lemma geojson_row_reports sr use cols st row st' :
  process_geojson_row sr use cols st row = Ok st' ->
  processed_reports st' = processed_reports st.
Proof.
  unfold process_geojson_row. intros Hrun.
  do 5 bind_ok Hrun. by eapply add_feature_reports.
Qed.

Lemma txt_line_reports sr use st line st' :
  process_txt_line sr use st line = Ok st' ->
  processed_reports st' = processed_reports st.
Proof.
  unfold process_txt_line. intros Hrun.
  destruct (contains _ _); [by injection Hrun as <-|].
  destruct (_ <? _)%nat; [by injection Hrun as <-|].
  repeat match type of Hrun with
         | match ?o with Some _ => _ | None => _ end = _ =>
             destruct o; [|by injection Hrun as <-]
         end.
  destruct (bool_decide _); [|by injection Hrun as <-].
  bind_ok Hrun. by eapply add_feature_reports.
Qed.

Lemma fold_result_preserves {A S T} (f : S -> A -> result S) (proj : S -> T)
    (l : list A) :
  (forall st x st', f st x = Ok st' -> proj st' = proj st) ->
  forall st st', fold_result f l st = Ok st' -> proj st' = proj st.
Proof.
  intros Hstep. induction l as [|x l IH]; intros st st' Hrun; simpl in Hrun.
  - by injection Hrun as <-.
  - bind_ok Hrun. rewrite (IH _ _ Hrun). by eapply Hstep.
Qed.

Lemma geojson_report_reports sr use st report st' :
  process_geojson_report sr use st report = Ok st' ->
  processed_reports st' = {[report.1]} ∪ processed_reports st.
Proof.
  destruct report as [name gdf]. unfold process_geojson_report. simpl.
  case_bool_decide as Hin.
  { intros [= <-]. set_solver. }
  destruct (missing_fields gdf); intros Hrun.
  - bind_ok Hrun. injection Hrun as <-. simpl. f_equal.
    eapply (fold_result_preserves _ processed_reports); [|exact Hx].
    intros ? ? ?. apply geojson_row_reports.
  - by injection Hrun as <-.
Qed.

Lemma txt_report_reports sr use st report st' :
  process_txt_report sr use st report = Ok st' ->
  processed_reports st' = {[report.1]} ∪ processed_reports st.
Proof.
  destruct report as [name lines]. unfold process_txt_report. simpl.
  case_bool_decide as Hin.
  { intros [= <-]. set_solver. }
  intros Hrun. bind_ok Hrun. injection Hrun as <-. simpl. f_equal.
  eapply (fold_result_preserves _ processed_reports); [|exact Hx].
  intros ? ? ?. apply txt_line_reports.
Qed.

(** A loop over reports adds the name of every report to the set. *)
Lemma fold_reports_names {A} (f : Pipeline -> string * A -> result Pipeline)
    (l : list (string * A)) :
  (forall st report st',
     f st report = Ok st' ->
     processed_reports st' = {[report.1]} ∪ processed_reports st) ->
  forall st st',
    fold_result f l st = Ok st' ->
    processed_reports st' = list_to_set (map fst l) ∪ processed_reports st.
Proof.
  intros Hstep. induction l as [|x l IH]; intros st st' Hrun; simpl in Hrun.
  - injection Hrun as <-. simpl. set_solver.
  - bind_ok Hrun. rewrite (IH _ _ Hrun), (Hstep _ _ _ Hx). simpl. set_solver.
Qed.

Lemma normalize_crs_columns gdf sr out :
  normalize_crs gdf sr = Ok out -> columns out = columns gdf.
Proof.
  unfold normalize_crs. destruct (crs gdf) as [c|] eqn:Hc; [|by intros [= <-]].
  destruct (decide _); [|by intros [= <-]].
  unfold to_crs. rewrite Hc. destruct (decide _); by intros [= <-].
Qed.

Lemma normalize_reports_names sr (l l' : list (string * GeoDataFrame)) :
  mapM (fun report : string * GeoDataFrame =>
          gdf ← normalize_crs report.2 sr; Ok (report.1, gdf)) l = Ok l' ->
  map fst l' = map fst l
  ∧ Forall2 (fun r r' => r'.1 = r.1 ∧ columns r'.2 = columns r.2) l l'.
Proof.
  revert l'. induction l as [|x l IH]; intros l' Hrun; simpl in Hrun.
  - injection Hrun as <-. by split.
  - bind_ok Hrun. bind_ok Hrun. injection Hrun as <-.
    bind_ok Hx. injection Hx as <-.
    destruct (IH _ eq_refl) as [Hn Hall]. split; simpl; [by rewrite Hn|].
    constructor; [|done]. split; [done|]. simpl.
    by eapply normalize_crs_columns.
Qed.

(** A GeoJSON report without one of the required fields changes nothing
    but the set of processed reports. *)
Lemma rejected_report_step sr use st name gdf :
  missing_fields gdf ≠ [] ->
  process_geojson_report sr use st (name, gdf)
  = Ok (if bool_decide (name ∈ processed_reports st) then st
        else mark_processed st name).
Proof.
  intros Hmiss. unfold process_geojson_report.
  destruct (bool_decide _); [done|]. by destruct (missing_fields gdf).
Qed.

(** A report that is already in the set is skipped. *)
Lemma processed_report_skipped sr use st name gdf :
  name ∈ processed_reports st ->
  process_geojson_report sr use st (name, gdf) = Ok st.
Proof.
  intros Hin. unfold process_geojson_report.
  by rewrite bool_decide_eq_true_2.
Qed.

End PipelineProperties.

Section PipelineClaims.
Context `{E : GeometryEngine} `{I : !Ingestion}.

Lemma missing_fields_columns (a b : GeoDataFrame) :
  columns a = columns b -> missing_fields a = missing_fields b.
Proof. unfold missing_fields. by intros ->. Qed.

(** C10: the set returned by [create_pipeline_features] is the input set
    together with the file names of all GeoJSON and text reports passed
    in; a GeoJSON report that lacks a required field has no other effect
    than being marked processed (the call returns what it returns without
    that report when its name is in the set from the start); and a
    report whose name is in the returned set is skipped by the loop. *)
Theorem C10_processed_reports geojson txt gdf sr coll ps use out :
  create_pipeline_features geojson txt gdf sr coll ps use = Ok out ->
  out_processed_reports out
  = default ∅ ps ∪ list_to_set (map fst geojson) ∪ list_to_set (map fst txt)
  ∧ (forall name report rest,
       geojson = (name, report) :: rest ->
       missing_fields report ≠ [] ->
       create_pipeline_features rest txt gdf sr coll
         (Some ({[name]} ∪ default ∅ ps)) use = Ok out)
  ∧ (forall name report st,
       name ∈ out_processed_reports out ->
       processed_reports st = out_processed_reports out ->
       process_geojson_report sr use st (name, report) = Ok st).
Proof.
  intros Hrun. unfold create_pipeline_features in Hrun.
  destruct (normalize_crs gdf sr) as [g|] eqn:Hg; [simpl in Hrun|done].
  destruct (mapM _ geojson) as [reports|] eqn:Hmap; [simpl in Hrun|done].
  destruct (fold_result _ reports _) as [st1|] eqn:Hgeo; [simpl in Hrun|done].
  destruct (fold_result _ txt st1) as [st2|] eqn:Htxt; [simpl in Hrun|done].
  assert (Hset : processed_reports st2
                 = default ∅ ps ∪ list_to_set (map fst geojson)
                   ∪ list_to_set (map fst txt)).
  { rewrite (fold_reports_names _ _ (txt_report_reports sr use) _ _ Htxt).
    rewrite (fold_reports_names _ _ (geojson_report_reports sr use) _ _ Hgeo).
    destruct (normalize_reports_names _ _ _ Hmap) as [-> _]. simpl.
    set_solver. }
  destruct st2 as [pr pp gl fa cl]. injection Hrun as <-. simpl in *.
  split; [exact Hset|]. split.
  - intros name report rest -> Hmiss.
    simpl in Hmap.
    destruct (normalize_crs report sr) as [report'|] eqn:Hrep;
      [simpl in Hmap|done].
    destruct (mapM _ rest) as [rest'|] eqn:Hrest; [simpl in Hmap|done].
    injection Hmap as <-.
    cbn [fold_result] in Hgeo.
    rewrite rejected_report_step in Hgeo.
    2:{ rewrite (missing_fields_columns _ report); [done|].
        by eapply normalize_crs_columns. }
    cbn [mbind result_bind] in Hgeo.
    unfold create_pipeline_features. rewrite Hg. simpl. rewrite Hrest. simpl.
    replace (fold_result (process_geojson_report sr use) rest'
               (mkPipeline ({[name]} ∪ default ∅ ps) ∅ g false coll))
      with (Ok st1 : result Pipeline).
    { simpl. by rewrite Htxt. }
    rewrite <- Hgeo. f_equal.
    case_bool_decide as Hin; [|done].
    f_equal. set_solver.
  - intros name report st Hin Hst. apply processed_report_skipped.
    by rewrite Hst.
Qed.

End PipelineClaims.

(** A concrete run of the ingestion on the raster engine. *)

Section PipelineRuns.
Import Raster Examples.
#[local] Existing Instances engine ingestion.

Lemma C10_witness :
  out_processed_reports ingested
  = default ∅ None ∪ list_to_set (map fst [("bad.geojson", bad_report)])
    ∪ list_to_set (map fst [("pipes.txt", txt_lines)])
  ∧ (forall name report rest,
       [("bad.geojson", bad_report)] = (name, report) :: rest ->
       missing_fields report ≠ [] ->
       create_pipeline_features rest [("pipes.txt", txt_lines)] base_lines
         (EPSG 4326) no_documents (Some ({[name]} ∪ default ∅ None)) true
       = Ok ingested)
  ∧ (forall name report st,
       name ∈ out_processed_reports ingested ->
       processed_reports st = out_processed_reports ingested ->
       process_geojson_report (EPSG 4326) true st (name, report) = Ok st).
Proof.
  apply (C10_processed_reports [("bad.geojson", bad_report)]
           [("pipes.txt", txt_lines)] base_lines (EPSG 4326) no_documents None true
           ingested).
  vm_compute. reflexivity.
Defined.

End PipelineRuns.

(** ** Further properties of the buffer pipeline *)

Section BufferFurther.
Context `{E : GeometryEngine} `{C : Config} `{H : !Helpers}.

Lemma filter_cells_sublist (keep : Row -> bool) (rs : list Row) :
  sublist (map cells (List.filter keep rs)) (map cells rs).
Proof.
  induction rs as [|r rs IH]; simpl; [constructor|].
  destruct (keep r); simpl; by constructor.
Qed.

Lemma apply_geometry_cells (f : option Geom -> option Geom) (gdf : GeoDataFrame) :
  map cells (rows (apply_geometry f gdf)) = map cells (rows gdf).
Proof. unfold apply_geometry. simpl. rewrite map_map. by apply map_ext. Qed.

Lemma buffering_modes (d : float) (gdf : GeoDataFrame) :
  buffering true d gdf = buffering false d gdf.
Proof.
  unfold buffering, assign_geometry, apply_geometry, parallel_process.
  f_equal. rewrite map_map. simpl.
  apply (assign_rows_map (fun g => (fun g0 => geom_buffer g0 d) <$> g)).
Qed.

Lemma ensure_projected_no_rows gdf out :
  ensure_projected_crs gdf = Ok out ->
  rows gdf = [] -> rows out = [] ∧ columns out = columns gdf.
Proof.
  unfold ensure_projected_crs. destruct (crs gdf) as [c|] eqn:Hc.
  - destruct (is_projected c); [by intros [= <-]|].
    unfold to_crs. rewrite Hc. destruct (decide _); intros [= <-]; [done|].
    simpl. by intros ->.
  - by intros [= <-].
Qed.

(** X4: [subtract_parks_from_buffer] keeps the columns and the CRS of the
    buffer layer, adds no row, and keeps the attribute cells of the rows
    it returns, in their order; only geometries are replaced and rows
    dropped. *)
Theorem subtract_parks_keeps_schema w buffer_gdf parks mp out :
  subtract_parks_from_buffer w buffer_gdf parks mp = Ok out ->
  columns out = columns buffer_gdf
  ∧ crs out = crs buffer_gdf
  ∧ sublist (map cells (rows out)) (map cells (rows buffer_gdf)).
Proof.
  unfold subtract_parks_from_buffer. destruct parks as [p|].
  2:{ by intros [= <-]. }
  intros Hrun. bind_ok Hrun. injection Hrun as <-.
  split; [by destruct mp|]. split; [by destruct mp|].
  etrans; [apply filter_cells_sublist|].
  rewrite apply_geometry_cells.
  assert (Hsub : forall g : GeoDataFrame,
            map cells (rows (if mp
               then assign_geometry g
                      (parallel_process subtract_park_from_geom_helper
                         (map (fun r => (geometry r, map geometry (rows x)))
                              (rows g)))
               else apply_geometry
                      (fun geom => subtract_park_from_geom geom
                                     (map geometry (rows x))) g))
            = map cells (rows g)).
  { intros g. destruct mp; [rewrite subtract_modes|]; apply apply_geometry_cells. }
  rewrite Hsub.
  etrans; [apply filter_cells_sublist|].
  rewrite apply_geometry_cells. apply filter_cells_sublist.
Qed.

(** X5: on a gas lines layer without rows [create_buffer_with_geopandas]
    returns a frame without rows and with the columns of the layer, and
    never reads the parks file: the result is the same whether or not
    that file exists. *)
Theorem create_buffer_no_rows w path ft parks mp gdf :
  read_file w path = Ok gdf ->
  rows gdf = [] ->
  exists out, create_buffer_with_geopandas w path ft parks mp = Ok out
              ∧ rows out = [] ∧ columns out = columns gdf.
Proof.
  intros Hread Hrows. unfold create_buffer_with_geopandas.
  rewrite Hread. simpl.
  set (g0 := match crs gdf with Some _ => gdf | None => _ end).
  assert (Hc0 : exists c, crs g0 = Some c)
    by (subst g0; destruct (crs gdf) eqn:Hc; simpl; eauto).
  assert (Hr0 : rows g0 = [] ∧ columns g0 = columns gdf)
    by (subst g0; by destruct (crs gdf)).
  destruct Hc0 as [c0 Hc0]. destruct Hr0 as [Hr0 Hcol0].
  destruct (ensure_projected_total g0 c0 Hc0) as (g1 & c1 & Hg1 & _ & _).
  rewrite Hg1. simpl.
  destruct (ensure_projected_no_rows _ _ Hg1 Hr0) as [Hr1 Hcol1].
  rewrite Hr1. simpl. unfold log_and_filter_invalid_geometries, select.
  rewrite Hr1. simpl. eexists. split; [done|]. simpl. split; [done|].
  congruence.
Qed.

(** X6: the execution mode changes no result: with the parallel map
    returning its results in submission order, both functions return the
    same with [use_multiprocessing] set and unset. *)
Theorem execution_mode_irrelevant w path ft parks buffer_gdf :
  subtract_parks_from_buffer w buffer_gdf parks true
  = subtract_parks_from_buffer w buffer_gdf parks false
  ∧ create_buffer_with_geopandas w path ft parks true
    = create_buffer_with_geopandas w path ft parks false.
Proof.
  split.
  - unfold subtract_parks_from_buffer. destruct parks as [p|]; [|done].
    destruct (load_parks _ _ _) as [pk|]; [simpl|done].
    by rewrite subtract_modes.
  - unfold create_buffer_with_geopandas.
    destruct (read_file w path) as [g|]; [cbn [mbind result_bind]|done].
    destruct (ensure_projected_crs _) as [g1|]; [cbn [mbind result_bind]|done].
    by rewrite buffering_modes.
Qed.

End BufferFurther.

(** ** Further properties of the merge *)

Section MergeFurther.
Context `{E : GeometryEngine} `{C : Config} `{H : !Helpers}.

Lemma to_crs_columns gdf t out :
  to_crs gdf t = Ok out ->
  columns out = columns gdf ∧ length (rows out) = length (rows gdf).
Proof.
  unfold to_crs. destruct (crs gdf) as [c|]; [|done].
  destruct t as [t|]; [|done].
  destruct (decide (c = t)); intros [= <-]; [done|].
  simpl. by rewrite length_map.
Qed.

Lemma validate_columns gdf t label out :
  validate_and_reproject_crs gdf t label = Ok out -> columns out = columns gdf.
Proof.
  unfold validate_and_reproject_crs.
  set (g := match crs gdf with Some _ => gdf | None => _ end).
  assert (Hg : columns g = columns gdf) by (subst g; by destruct (crs gdf)).
  destruct t as [t|]; [|by intros [= <-]].
  destruct (decide _); [by intros [= <-]|].
  intros [Hto _]%to_crs_columns. congruence.
Qed.

Lemma ensure_projected_columns gdf out :
  ensure_projected_crs gdf = Ok out -> columns out = columns gdf.
Proof.
  unfold ensure_projected_crs. destruct (crs gdf) as [c|]; [|by intros [= <-]].
  destruct (is_projected c); [by intros [= <-]|].
  by intros [Hto _]%to_crs_columns.
Qed.

Lemma resolve_crs_columns bgdf fgdf b f :
  resolve_crs bgdf fgdf = Ok (b, f) ->
  columns b = columns bgdf ∧ columns f = columns fgdf.
Proof.
  unfold resolve_crs. intros Hrun.
  bind_ok Hrun. bind_ok Hrun. bind_ok Hrun. bind_ok Hrun.
  injection Hrun as <- <-.
  apply validate_columns in Hx. apply ensure_projected_columns in Hx0, Hx1.
  assert (Hb : columns x0 = columns bgdf).
  { rewrite Hx0, Hx. by destruct (crs bgdf). }
  split.
  - destruct (decide _).
    + apply to_crs_columns in Hx2 as [Hx2 _]. congruence.
    + by injection Hx2 as <-.
  - rewrite Hx1. by destruct (crs fgdf).
Qed.

Lemma assign_rows_cells (rs : list Row) (gs : list (option Geom)) :
  length gs = length rs -> map cells (assign_rows rs gs) = map cells rs.
Proof.
  revert gs. induction rs as [|r rs IH]; intros [|g gs] Hlen; simpl in *;
    try done.
  f_equal. apply IH. lia.
Qed.

Lemma geoseries_to_crs_length gs from to out :
  geoseries_to_crs gs from to = Ok out -> length out = length gs.
Proof.
  unfold geoseries_to_crs. destruct from as [c|]; [|done].
  destruct to as [t|]; [|done].
  destruct (decide _); intros [= <-]; [done|]. by rewrite length_map.
Qed.

Lemma harmonize_columns b f pbd f' :
  harmonize_geometry b f pbd = Ok f' -> columns f' = columns f.
Proof.
  unfold harmonize_geometry. destruct (negb (forallb _ _)); [done|].
  destruct (negb (empty f)); [|by intros [= <-]].
  destruct (unique_geom_types f) as [|k [|? ?]]; [done| |done].
  destruct (bool_decide _); [by intros [= <-]|].
  destruct (bool_decide _); [|done].
  unfold buffer_to_polygons. intros Hrun. bind_ok Hrun. bind_ok Hrun.
  by injection Hrun as <-.
Qed.

(** X7: the stage GeometryHarmonized changes nothing but geometries: the
    planning layer that comes out of it, converted from points or lines
    or not, has the columns, the CRS and, row by row, the attribute cells
    of the layer that went in. *)
Theorem harmonize_keeps_attributes b f pbd f' :
  harmonize_geometry b f pbd = Ok f' ->
  columns f' = columns f
  ∧ crs f' = crs f
  ∧ map cells (rows f') = map cells (rows f).
Proof.
  unfold harmonize_geometry. destruct (negb (forallb _ _)); [done|].
  destruct (negb (empty f)); [|by intros [= <-]].
  destruct (unique_geom_types f) as [|k [|? ?]]; [done| |done].
  destruct (bool_decide _); [by intros [= <-]|].
  destruct (bool_decide _); [|done].
  unfold buffer_to_polygons. intros Hrun. bind_ok Hrun. bind_ok Hrun.
  injection Hrun as <-. split; [done|]. split; [done|]. simpl.
  apply assign_rows_cells.
  rewrite (geoseries_to_crs_length _ _ _ _ Hx0), length_map.
  by apply to_crs_columns in Hx as [_ ?].
Qed.

Lemma reindex_row_geometry from to r :
  "geometry" ∈ to -> geometry (reindex_row from to r) = geometry r.
Proof. intros Hin. unfold reindex_row. simpl. by rewrite bool_decide_eq_true_2. Qed.

Lemma good_row_geometry (r r' : Row) :
  geometry r = geometry r' -> good_row r = good_row r'.
Proof.
  unfold good_row, notnull, is_valid, is_empty. by intros ->.
Qed.

Lemma good_rows_geometry (rs rs' : list Row) :
  map geometry rs = map geometry rs' ->
  Forall (fun r => good_row r = true) rs' ->
  Forall (fun r => good_row r = true) rs.
Proof.
  revert rs'. induction rs as [|r rs IH]; intros [|r' rs'] Heq Hall;
    simpl in Heq; try done.
  injection Heq as Hr Hrs. apply Forall_cons_1 in Hall as [Hr' Hall].
  constructor; [by rewrite (good_row_geometry _ _ Hr)|by eapply IH].
Qed.

Lemma clean_rows_good gdf : Forall (fun r => good_row r = true) (rows (clean gdf)).
Proof. apply select_rows_Forall. Qed.

Lemma empty_with_columns gdf :
  columns gdf ≠ [] -> empty gdf = match rows gdf with [] => true | _ => false end.
Proof. unfold empty. destruct (rows gdf), (columns gdf); done. Qed.

Lemma concat_pair_geometry (a b merged : GeoDataFrame) :
  "geometry" ∈ columns a ->
  "geometry" ∈ columns b ->
  concat (List.filter (fun df => negb (empty df)) [a; b]) = Ok merged ->
  map geometry (rows merged)
  = (map geometry (rows a) ++ map geometry (rows b))%list.
Proof.
  intros Ha Hb.
  assert (Hna : columns a ≠ [])
    by (intros Hnil; rewrite Hnil in Ha; by apply elem_of_nil in Ha).
  assert (Hnb : columns b ≠ [])
    by (intros Hnil; rewrite Hnil in Hb; by apply elem_of_nil in Hb).
  cbn [List.filter].
  rewrite (empty_with_columns _ Hna), (empty_with_columns _ Hnb).
  destruct (rows a) as [|ra rsa] eqn:Hra;
    destruct (rows b) as [|rb rsb] eqn:Hrb; cbn [negb concat fold_left];
    try done.
  - intros [= <-]. by rewrite Hrb.
  - intros [= <-]. by rewrite Hra, app_nil_r.
  - intros [= <-]. unfold concat2. cbn [rows]. rewrite Hra, Hrb.
    rewrite map_app, !map_map. f_equal; apply map_ext; intros r;
      apply reindex_row_geometry; apply elem_of_app; by left.
Qed.

(** X8: append semantics.  With no [output_crs], a merge of two layers
    that each have a geometry column returns the cleaned planning rows
    followed by the cleaned buffer rows, geometry by geometry, with no
    deduplication; every row it returns (and writes) has a non-null,
    valid, non-empty geometry. *)
Theorem merge_appends buf plan pbd w bgdf fgdf w' out :
  read_file w buf = Ok bgdf ->
  read_file w plan = Ok fgdf ->
  empty bgdf = false ->
  "geometry" ∈ columns bgdf ->
  "geometry" ∈ columns fgdf ->
  merge_buffers_into_planning_file buf plan pbd None w = (w', Ok out) ->
  exists b f f',
    resolve_crs bgdf fgdf = Ok (b, f)
    ∧ harmonize_geometry b f pbd = Ok f'
    ∧ map geometry (rows out)
      = (map geometry (rows (clean f')) ++ map geometry (rows (clean b)))%list
    ∧ Forall (fun r => good_row r = true) (rows out).
Proof.
  intros Hb Hf He Hgb Hgf. rewrite (merge_run _ _ _ _ _ _ _ Hb Hf He).
  destruct (resolve_crs_total bgdf fgdf) as (b & f & Hres & Hcb & Hcf).
  rewrite Hres. destruct (resolve_crs_columns _ _ _ _ Hres) as [Hcolb Hcolf].
  destruct (harmonize_geometry b f pbd) as [f'|e] eqn:Hhar; [|done].
  pose proof (harmonize_columns b f pbd f' Hhar) as Hcolf'.
  pose proof (harmonize_crs b f pbd f' Hhar) as Hcrsf'.
  assert (Hgb' : "geometry" ∈ columns (clean b))
    by (rewrite clean_columns; congruence).
  assert (Hgf' : "geometry" ∈ columns (clean f'))
    by (rewrite clean_columns; congruence).
  assert (Hcrs : crs (clean f') = crs (clean b))
    by (rewrite !clean_crs; congruence).
  destruct (concat _) as [merged|e] eqn:Hcat; [|done].
  pose proof (concat_pair_geometry _ _ _ Hgf' Hgb' Hcat) as Hgeo.
  unfold resolve_output_crs.
  assert (Hto : to_crs (mkGDF (columns merged) (rows merged) (crs (clean f')))
                  (if negb (empty (clean b)) then crs (clean b)
                   else crs (clean f'))
                = Ok (mkGDF (columns merged) (rows merged) (crs (clean f')))).
  { rewrite Hcrs, clean_crs, Hcb.
    destruct (negb _); unfold to_crs; cbn [crs]; by rewrite decide_True. }
  rewrite Hto.
  assert (Hm : empty (mkGDF (columns merged) (rows merged) (crs (clean f')))
               = false).
  { apply concat_nonempty in Hcat. unfold empty in *. exact Hcat. }
  rewrite Hm.
  destruct (get_driver_from_extension plan) as [driver|e]; [|done].
  intros [= _ <-]. exists b, f, f'. do 2 (split; [done|]). cbn [rows].
  split; [exact Hgeo|].
  apply good_rows_geometry with (rs' := (rows (clean f') ++ rows (clean b))%list).
  - by rewrite map_app.
  - apply Forall_app. split; apply clean_rows_good.
Qed.


End MergeFurther.

(** Concrete runs for the further properties. *)

Section FurtherRuns.
Import Raster Examples.
#[local] Existing Instances engine config helpers.

Lemma subtract_parks_keeps_schema_witness :
  columns one_buffer = columns two_buffers
  ∧ crs one_buffer = crs two_buffers
  ∧ sublist (map cells (rows one_buffer)) (map cells (rows two_buffers)).
Proof.
  apply (subtract_parks_keeps_schema pipeline_world two_buffers
           (Some "no_parks.shp") false one_buffer).
  vm_compute. reflexivity.
Defined.

Lemma create_buffer_no_rows_witness :
  exists out,
    create_buffer_with_geopandas pipeline_world "no_parks.shp" None
      (Some "missing.shp") false = Ok out
    ∧ rows out = [] ∧ columns out = columns no_parks.
Proof.
  apply (create_buffer_no_rows pipeline_world "no_parks.shp" None
           (Some "missing.shp") false no_parks); reflexivity.
Defined.

Lemma harmonize_keeps_attributes_witness :
  columns point_planning_polygons = columns point_planning
  ∧ crs point_planning_polygons = crs point_planning
  ∧ map cells (rows point_planning_polygons) = map cells (rows point_planning).
Proof.
  apply (harmonize_keeps_attributes one_buffer point_planning 3%float
           point_planning_polygons).
  vm_compute. reflexivity.
Defined.

Lemma merge_appends_witness :
  exists b f f',
    resolve_crs one_buffer polygon_planning = Ok (b, f)
    ∧ harmonize_geometry b f 10 = Ok f'
    ∧ map geometry (rows merged_layers)
      = (map geometry (rows (clean f')) ++ map geometry (rows (clean b)))%list
    ∧ Forall (fun r => good_row r = true) (rows merged_layers).
Proof.
  apply (merge_appends "buffers.gpkg" "planning.gpkg" 10%float
           (merge_world one_buffer polygon_planning) one_buffer polygon_planning
           (to_file (merge_world one_buffer polygon_planning) "planning.gpkg"
              "GPKG" merged_layers) merged_layers).
  - reflexivity.
  - reflexivity.
  - reflexivity.
  - apply (bool_decide_unpack _). vm_compute. exact I.
  - apply (bool_decide_unpack _). vm_compute. exact I.
  - vm_compute. reflexivity.
Defined.


End FurtherRuns.

(** ** Further properties of the ingestion *)

Section PipelineFurther.
Context `{E : GeometryEngine} `{I : !Ingestion}.


Lemma make_feature_crs name date psi material geometry c out :
  make_feature name date psi material geometry c = Ok out -> crs out = Some c.
Proof.
  unfold make_feature. destruct geometry as [g|]; [simpl|done].
  destruct material; try done. simpl. by intros [= <-].
Qed.

Lemma frame_grows_refl st : frame_grows st st.
Proof.
  repeat split; try done. intros Ht Hf. congruence.
Qed.

Lemma frame_grows_trans st1 st2 st3 :
  frame_grows st1 st2 -> frame_grows st2 st3 -> frame_grows st1 st3.
Proof.
  intros (Hc1 & Hl1 & Hf1 & Hg1) (Hc2 & Hl2 & Hf2 & Hg2).
  split; [congruence|]. split; [lia|]. split.
  - intros H3. destruct (Hf2 H3) as [Hg Hfa]. destruct (Hf1 Hfa) as [Hg' Hfa'].
    split; congruence.
  - intros H3 H1. destruct (features_added st2) eqn:H2.
    + specialize (Hg1 eq_refl H1). lia.
    + specialize (Hg2 H3 eq_refl). lia.
Qed.

Lemma filter_known_columns (cols : list string) :
  List.filter (fun c => negb (bool_decide (c ∈ cols))) cols = [].
Proof.
  assert (Hall : forall l, (forall c, In c l -> c ∈ cols) ->
            List.filter (fun c => negb (bool_decide (c ∈ cols))) l = []).
  { induction l as [|c l IH]; intros Hin; simpl; [done|].
    rewrite bool_decide_eq_true_2 by (apply Hin; by left). simpl.
    apply IH. intros c' Hc'. apply Hin. by right. }
  apply Hall. intros c Hc. by apply list_elem_of_In.
Qed.

Lemma add_feature_grows use st new_feature name date psi material point st' :
  add_feature use st new_feature name date psi material point = Ok st' ->
  frame_grows st st'.
Proof.
  unfold add_feature. intros Hrun. bind_ok Hrun.
  destruct (empty _) eqn:Hempty; simpl in Hrun; injection Hrun as <-.
  - repeat split; simpl; try done. intros Ht Hf. congruence.
  - apply empty_false in Hempty as [Hrows _].
    split; [|split; [|split]]; cbn [gas_lines_gdf features_added].
    + unfold concat2. cbn [columns]. unfold dropna_all, select,
        align_feature_dtypes. cbn [columns].
      by rewrite filter_known_columns, app_nil_r.
    + unfold concat2. cbn [rows]. rewrite length_app, !length_map. lia.
    + done.
    + intros _ _. unfold concat2. cbn [rows].
      rewrite length_app, !length_map.
      destruct (rows (dropna_all _)); [done|]. simpl. lia.
Qed.

Lemma fold_result_rel {A S} (f : S -> A -> result S) (R : S -> S -> Prop)
    (l : list A) :
  (forall st, R st st) ->
  (forall a b c, R a b -> R b c -> R a c) ->
  (forall st x st', f st x = Ok st' -> R st st') ->
  forall st st', fold_result f l st = Ok st' -> R st st'.
Proof.
  intros Hrefl Htrans Hstep.
  induction l as [|x l IH]; intros st st' Hrun; simpl in Hrun.
  - injection Hrun as <-. apply Hrefl.
  - bind_ok Hrun. eapply Htrans; [by eapply Hstep|by apply IH].
Qed.

Lemma mark_processed_grows st name : frame_grows st (mark_processed st name).
Proof. repeat split; simpl; try done. intros Ht Hf. congruence. Qed.

Lemma geojson_row_grows sr use cols st row st' :
  process_geojson_row sr use cols st row = Ok st' -> frame_grows st st'.
Proof.
  unfold process_geojson_row. intros Hrun. do 5 bind_ok Hrun.
  by eapply add_feature_grows.
Qed.

Lemma txt_line_grows sr use st line st' :
  process_txt_line sr use st line = Ok st' -> frame_grows st st'.
Proof.
  unfold process_txt_line. intros Hrun.
  destruct (contains _ _); [injection Hrun as <-; apply frame_grows_refl|].
  destruct (_ <? _)%nat; [injection Hrun as <-; apply frame_grows_refl|].
  repeat match type of Hrun with
         | match ?o with Some _ => _ | None => _ end = _ =>
             destruct o; [|injection Hrun as <-; apply frame_grows_refl]
         end.
  destruct (bool_decide _); [|injection Hrun as <-; apply frame_grows_refl].
  bind_ok Hrun. by eapply add_feature_grows.
Qed.

Lemma geojson_report_grows sr use st report st' :
  process_geojson_report sr use st report = Ok st' -> frame_grows st st'.
Proof.
  destruct report as [name gdf]. unfold process_geojson_report.
  destruct (bool_decide _); [intros [= <-]; apply frame_grows_refl|].
  destruct (missing_fields gdf); intros Hrun.
  - bind_ok Hrun. injection Hrun as <-.
    eapply frame_grows_trans; [|apply mark_processed_grows].
    eapply (fold_result_rel _ frame_grows); [apply frame_grows_refl
      |apply frame_grows_trans| |exact Hx].
    intros ? ? ?. apply geojson_row_grows.
  - injection Hrun as <-. apply mark_processed_grows.
Qed.

Lemma txt_report_grows sr use st report st' :
  process_txt_report sr use st report = Ok st' -> frame_grows st st'.
Proof.
  destruct report as [name lines]. unfold process_txt_report.
  destruct (bool_decide _); [intros [= <-]; apply frame_grows_refl|].
  intros Hrun. bind_ok Hrun. injection Hrun as <-.
  eapply frame_grows_trans; [|apply mark_processed_grows].
  eapply (fold_result_rel _ frame_grows); [apply frame_grows_refl
    |apply frame_grows_trans| |exact Hx].
  intros ? ? ?. apply txt_line_grows.
Qed.

Lemma normalize_crs_shape gdf sr out :
  normalize_crs gdf sr = Ok out ->
  columns out = columns gdf
  ∧ length (rows out) = length (rows gdf)
  ∧ (crs out = None ∨ crs out = Some sr).
Proof.
  unfold normalize_crs. destruct (crs gdf) as [c|] eqn:Hc.
  - destruct (decide _) as [Hne|Heq].
    + intros Hto. destruct (to_crs_columns _ _ _ Hto) as [? ?].
      apply to_crs_crs in Hto. eauto.
    + intros [= <-]. split; [done|]. split; [done|]. right.
      rewrite Hc. f_equal. by destruct (decide (c = sr)).
  - intros [= <-]. eauto.
Qed.

(** X11: the ingestion never changes the columns of the gas lines frame
    (new features are aligned to them); the flag it returns is True
    exactly when the frame grew: with the flag False the frame is the
    input after CRS normalisation, with the flag True it has more rows
    than the input. *)
Theorem pipeline_frame_and_flag geojson txt gdf sr coll ps use out :
  create_pipeline_features geojson txt gdf sr coll ps use = Ok out ->
  columns (out_gas_lines_gdf out) = columns gdf
  ∧ (out_features_added out = false ->
     normalize_crs gdf sr = Ok (out_gas_lines_gdf out))
  ∧ (out_features_added out = true ->
     (length (rows gdf) < length (rows (out_gas_lines_gdf out)))%nat).
Proof.
  intros Hrun. unfold create_pipeline_features in Hrun.
  destruct (normalize_crs gdf sr) as [g|] eqn:Hg; [simpl in Hrun|done].
  destruct (mapM _ geojson) as [reports|] eqn:Hmap; [simpl in Hrun|done].
  destruct (fold_result _ reports _) as [st1|] eqn:Hgeo; [simpl in Hrun|done].
  destruct (fold_result _ txt st1) as [st2|] eqn:Htxt; [simpl in Hrun|done].
  assert (Hrel : frame_grows (mkPipeline (default ∅ ps) ∅ g false coll) st2).
  { eapply frame_grows_trans.
    - eapply (fold_result_rel _ frame_grows); [apply frame_grows_refl
        |apply frame_grows_trans| |exact Hgeo].
      intros ? ? ?. apply geojson_report_grows.
    - eapply (fold_result_rel _ frame_grows); [apply frame_grows_refl
        |apply frame_grows_trans| |exact Htxt].
      intros ? ? ?. apply txt_report_grows. }
  destruct Hrel as (Hcols & Hlen & Hfalse & Htrue).
  destruct st2 as [pr pp gl fa cl]. injection Hrun as <-. simpl in *.
  destruct (normalize_crs_shape _ _ _ Hg) as (Hgc & Hgl & _).
  split; [congruence|]. split.
  - intros Hfa. destruct (Hfalse Hfa) as [-> _]. done.
  - intros Hfa. specialize (Htrue Hfa eq_refl). lia.
Qed.

End PipelineFurther.

Section PipelineRerun.
Context `{E : GeometryEngine} `{I : !Ingestion}.

Lemma fold_result_inv {A S} (f : S -> A -> result S) (P : S -> Prop)
    (l : list A) :
  (forall st x st', P st -> f st x = Ok st' -> P st') ->
  forall st st', P st -> fold_result f l st = Ok st' -> P st'.
Proof.
  intros Hstep. induction l as [|x l IH]; intros st st' HP Hrun; simpl in Hrun.
  - by injection Hrun as <-.
  - bind_ok Hrun. eapply IH; [|exact Hrun]. by eapply Hstep.
Qed.

Lemma add_feature_collection use coll st nf name date psi material point st' :
  collection_kept use coll st ->
  add_feature use st nf name date psi material point = Ok st' ->
  collection_kept use coll st'.
Proof.
  unfold collection_kept, add_feature. intros Hst Hrun Hoff.
  specialize (Hst Hoff).
  assert (Hcoll : match collection st with
                  | Some c =>
                      if use
                      then Some <$> upsert_mongodb_feature c name date psi
                                      material point
                      else Ok (Some c)
                  | None => Ok None
                  end = Ok coll).
  { rewrite Hst. destruct Hoff as [->| ->]; [by destruct coll|done]. }
  rewrite Hcoll in Hrun. simpl in Hrun.
  destruct (negb _); by injection Hrun as <-.
Qed.

Lemma geojson_report_collection sr use coll st report st' :
  collection_kept use coll st ->
  process_geojson_report sr use st report = Ok st' ->
  collection_kept use coll st'.
Proof.
  destruct report as [name gdf]. unfold process_geojson_report. intros Hst.
  destruct (bool_decide _); [by intros [= <-]|].
  destruct (missing_fields gdf); intros Hrun.
  - bind_ok Hrun. injection Hrun as <-.
    assert (Hx' : collection_kept use coll x).
    { eapply (fold_result_inv _ (collection_kept use coll)); [|exact Hst|exact Hx].
      intros s row s' Hs. unfold process_geojson_row. intros Hrow.
      do 5 bind_ok Hrow. by eapply add_feature_collection. }
    exact Hx'.
  - by injection Hrun as <-.
Qed.

Lemma txt_report_collection sr use coll st report st' :
  collection_kept use coll st ->
  process_txt_report sr use st report = Ok st' ->
  collection_kept use coll st'.
Proof.
  destruct report as [name lines]. unfold process_txt_report. intros Hst.
  destruct (bool_decide _); [by intros [= <-]|].
  intros Hrun. bind_ok Hrun. injection Hrun as <-.
  assert (Hx' : collection_kept use coll x).
  { eapply (fold_result_inv _ (collection_kept use coll)); [|exact Hst|exact Hx].
    intros s line s' Hs. unfold process_txt_line. intros Hline.
    destruct (contains _ _); [by injection Hline as <-|].
    destruct (_ <? _)%nat; [by injection Hline as <-|].
    repeat match type of Hline with
           | match ?o with Some _ => _ | None => _ end = _ =>
               destruct o; [|by injection Hline as <-]
           end.
    destruct (bool_decide _); [|by injection Hline as <-].
    bind_ok Hline. by eapply add_feature_collection. }
  exact Hx'.
Qed.

(** X12: with [use_mongodb] False, or without a collection, the ingestion
    never calls the document store: the collection after the call is the
    one passed in. *)
Theorem pipeline_leaves_collection geojson txt gdf sr coll ps use out :
  create_pipeline_features geojson txt gdf sr coll ps use = Ok out ->
  use = false ∨ coll = None ->
  out_collection out = coll.
Proof.
  intros Hrun Hoff. unfold create_pipeline_features in Hrun.
  destruct (normalize_crs gdf sr) as [g|] eqn:Hg; [simpl in Hrun|done].
  destruct (mapM _ geojson) as [reports|] eqn:Hmap; [simpl in Hrun|done].
  destruct (fold_result _ reports _) as [st1|] eqn:Hgeo; [simpl in Hrun|done].
  destruct (fold_result _ txt st1) as [st2|] eqn:Htxt; [simpl in Hrun|done].
  assert (H1 : collection_kept use coll st1).
  { eapply (fold_result_inv _ (collection_kept use coll)); [| |exact Hgeo].
    - intros ? ? ?. apply geojson_report_collection.
    - by intros _. }
  assert (H2 : collection_kept use coll st2).
  { eapply (fold_result_inv _ (collection_kept use coll)); [|exact H1|exact Htxt].
    intros ? ? ?. apply txt_report_collection. }
  destruct st2 as [pr pp gl fa cl]. injection Hrun as <-. simpl.
  exact (H2 Hoff).
Qed.

Lemma add_feature_crs sr use st nf name date psi material point st' :
  crs nf = Some sr ->
  crs_normal sr st ->
  add_feature use st nf name date psi material point = Ok st' ->
  crs_normal sr st'.
Proof.
  unfold crs_normal, add_feature. intros Hnf Hst Hrun. bind_ok Hrun.
  destruct (negb _); injection Hrun as <-; cbn [gas_lines_gdf]; [|done].
  unfold concat2. cbn [crs].
  destruct Hst as [-> | ->]; [|by right]. right.
  unfold dropna_all, select, align_feature_dtypes. by cbn [crs].
Qed.

Lemma geojson_report_crs sr use st report st' :
  crs_normal sr st ->
  process_geojson_report sr use st report = Ok st' ->
  crs_normal sr st'.
Proof.
  destruct report as [name gdf]. unfold process_geojson_report. intros Hst.
  destruct (bool_decide _); [by intros [= <-]|].
  destruct (missing_fields gdf); intros Hrun.
  - bind_ok Hrun. injection Hrun as <-.
    assert (Hx' : crs_normal sr x).
    { eapply (fold_result_inv _ (crs_normal sr)); [|exact Hst|exact Hx].
      intros s row s' Hs. unfold process_geojson_row. intros Hrow.
      do 5 bind_ok Hrow.
      eapply add_feature_crs; [|exact Hs|exact Hrow].
      by eapply make_feature_crs. }
    exact Hx'.
  - by injection Hrun as <-.
Qed.

Lemma txt_report_crs sr use st report st' :
  crs_normal sr st ->
  process_txt_report sr use st report = Ok st' ->
  crs_normal sr st'.
Proof.
  destruct report as [name lines]. unfold process_txt_report. intros Hst.
  destruct (bool_decide _); [by intros [= <-]|].
  intros Hrun. bind_ok Hrun. injection Hrun as <-.
  assert (Hx' : crs_normal sr x).
  { eapply (fold_result_inv _ (crs_normal sr)); [|exact Hst|exact Hx].
    intros s line s' Hs. unfold process_txt_line. intros Hline.
    destruct (contains _ _); [by injection Hline as <-|].
    destruct (_ <? _)%nat; [by injection Hline as <-|].
    repeat match type of Hline with
           | match ?o with Some _ => _ | None => _ end = _ =>
               destruct o; [|by injection Hline as <-]
           end.
    destruct (bool_decide _); [|by injection Hline as <-].
    bind_ok Hline.
    eapply add_feature_crs; [|exact Hs|exact Hline].
    by eapply make_feature_crs. }
  exact Hx'.
Qed.

(** A loop over reports that are all in the set does nothing. *)
Lemma fold_all_processed {A} (f : Pipeline -> string * A -> result Pipeline)
    (l : list (string * A)) (st : Pipeline) :
  (forall st report, report.1 ∈ processed_reports st -> f st report = Ok st) ->
  (forall name, name ∈ map fst l -> name ∈ processed_reports st) ->
  fold_result f l st = Ok st.
Proof.
  intros Hskip. induction l as [|x l IH]; intros Hin; simpl; [done|].
  rewrite Hskip by (apply Hin; simpl; by left). simpl.
  apply IH. intros name Hname. apply Hin. simpl. by right.
Qed.

Lemma txt_report_skipped sr use st (report : string * list string) :
  report.1 ∈ processed_reports st -> process_txt_report sr use st report = Ok st.
Proof.
  destruct report as [name lines]. simpl. intros Hin.
  unfold process_txt_report. by rewrite bool_decide_eq_true_2.
Qed.

(** X13: reports are never re-attempted.  Calling the ingestion again
    with the same reports, and with the set, the frame and the collection
    that the first call returned, returns that set, that frame and that
    collection unchanged, with the flag False. *)
Theorem pipeline_rerun_is_noop geojson txt gdf sr coll ps use out :
  create_pipeline_features geojson txt gdf sr coll ps use = Ok out ->
  create_pipeline_features geojson txt (out_gas_lines_gdf out) sr
    (out_collection out) (Some (out_processed_reports out)) use
  = Ok (mkOutcome (out_processed_reports out) (out_gas_lines_gdf out) false
          (out_collection out)).
Proof.
  intros Hrun. unfold create_pipeline_features in Hrun.
  destruct (normalize_crs gdf sr) as [g|] eqn:Hg; [simpl in Hrun|done].
  destruct (mapM _ geojson) as [reports|] eqn:Hmap; [simpl in Hrun|done].
  destruct (fold_result _ reports _) as [st1|] eqn:Hgeo; [simpl in Hrun|done].
  destruct (fold_result _ txt st1) as [st2|] eqn:Htxt; [simpl in Hrun|done].
  assert (Hcrs : crs_normal sr st2).
  { eapply (fold_result_inv _ (crs_normal sr)); [| |exact Htxt].
    - intros ? ? ?. apply txt_report_crs.
    - eapply (fold_result_inv _ (crs_normal sr)); [| |exact Hgeo].
      + intros ? ? ?. apply geojson_report_crs.
      + destruct (normalize_crs_shape _ _ _ Hg) as (_ & _ & Hc). exact Hc. }
  assert (Hset1 : processed_reports st1
                  = list_to_set (map fst reports) ∪ default ∅ ps)
    by exact (fold_reports_names _ _ (geojson_report_reports sr use) _ _ Hgeo).
  assert (Hset2 : processed_reports st2
                  = list_to_set (map fst txt) ∪ processed_reports st1)
    by exact (fold_reports_names _ _ (txt_report_reports sr use) _ _ Htxt).
  destruct st2 as [pr pp gl fa cl]. injection Hrun as <-.
  cbn [out_processed_reports out_gas_lines_gdf out_collection] in *.
  cbn [processed_reports gas_lines_gdf] in *.
  unfold create_pipeline_features.
  assert (Hnorm : normalize_crs gl sr = Ok gl).
  { unfold normalize_crs. unfold crs_normal in Hcrs. cbn [gas_lines_gdf] in Hcrs.
    destruct Hcrs as [-> | ->]; [done|]. by rewrite decide_False by auto. }
  rewrite Hnorm. cbn [mbind result_bind]. rewrite Hmap.
  cbn [mbind result_bind].
  change (default ∅ (Some pr)) with pr.
  rewrite fold_all_processed.
  - cbn [mbind result_bind]. rewrite fold_all_processed; [done| |].
    + intros st report. apply txt_report_skipped.
    + intros name Hname. cbn [processed_reports]. rewrite Hset2.
      apply elem_of_union_l. apply elem_of_list_to_set. exact Hname.
  - intros st [name report]. apply processed_report_skipped.
  - intros name Hname. cbn [processed_reports]. rewrite Hset2, Hset1.
    apply elem_of_union_r, elem_of_union_l. apply elem_of_list_to_set.
    destruct (normalize_reports_names _ _ _ Hmap) as [Hn _]. exact Hname.
Qed.

End PipelineRerun.

Section PipelineErrors.
Context `{E : GeometryEngine} `{I : !Ingestion}.

Lemma normalize_crs_rows gdf sr out :
  normalize_crs gdf sr = Ok out ->
  columns out = columns gdf
  ∧ exists f, rows out = map (fun r => set_geometry r (f <$> geometry r))
                             (rows gdf).
Proof.
  assert (Hid : rows gdf = map (fun r => set_geometry r (id <$> geometry r))
                               (rows gdf)).
  { induction (rows gdf) as [|r rs IH]; simpl; [done|]. rewrite <- IH.
    f_equal. destruct r as [cs [g|]]; reflexivity. }
  unfold normalize_crs. destruct (crs gdf) as [c|] eqn:Hc.
  - destruct (decide _).
    + unfold to_crs. rewrite Hc. destruct (decide _); intros [= <-]; eauto.
    + intros [= <-]. eauto.
  - intros [= <-]. eauto.
Qed.

Lemma normalize_crs_total gdf sr : exists out, normalize_crs gdf sr = Ok out.
Proof.
  unfold normalize_crs. destruct (crs gdf) as [c|] eqn:Hc; [|eauto].
  destruct (decide _); [|eauto]. by eapply to_crs_total.
Qed.

Lemma normalize_reports_total sr (l : list (string * GeoDataFrame)) :
  exists l',
    mapM (fun report : string * GeoDataFrame =>
            gdf ← normalize_crs report.2 sr; Ok (report.1, gdf)) l = Ok l'.
Proof.
  induction l as [|[name gdf] l [l' IH]]; simpl; [eauto|].
  destruct (normalize_crs_total gdf sr) as [out Hout].
  rewrite Hout. simpl. rewrite IH. simpl. eauto.
Qed.

Lemma normalize_reports_cons sr name gdf gdf' rest rest' :
  normalize_crs gdf sr = Ok gdf' ->
  mapM (fun report : string * GeoDataFrame =>
          gdf ← normalize_crs report.2 sr; Ok (report.1, gdf)) rest = Ok rest' ->
  mapM (fun report : string * GeoDataFrame =>
          gdf ← normalize_crs report.2 sr; Ok (report.1, gdf))
       ((name, gdf) :: rest) = Ok ((name, gdf') :: rest').
Proof. intros Hg Hrest. simpl. rewrite Hg. simpl. by rewrite Hrest. Qed.


Lemma add_feature_store_off use st nf name date psi material point :
  store_off use st ->
  exists st', add_feature use st nf name date psi material point = Ok st'
              ∧ store_off use st'.
Proof.
  unfold store_off, add_feature. intros Hoff.
  assert (Hcoll : match collection st with
                  | Some c =>
                      if use
                      then Some <$> upsert_mongodb_feature c name date psi
                                      material point
                      else Ok (Some c)
                  | None => Ok None
                  end = Ok (collection st)).
  { destruct Hoff as [->| ->]; [by destruct (collection st)|done]. }
  rewrite Hcoll. cbn [mbind result_bind].
  destruct (negb _); eexists; (split; [done|]); exact Hoff.
Qed.

Lemma txt_line_total sr use st line :
  store_off use st ->
  exists st', process_txt_line sr use st line = Ok st' ∧ store_off use st'.
Proof.
  intros Hoff. unfold process_txt_line.
  destruct (contains _ _); [eauto|].
  destruct (_ <? _)%nat; [eauto|].
  repeat match goal with
         | |- context [match ?o with Some _ => _ | None => _ end] =>
             destruct o; [|eauto]
         end.
  destruct (bool_decide _); [|eauto].
  unfold make_feature. cbn [mbind result_bind].
  by apply add_feature_store_off.
Qed.

Lemma fold_result_total {A S} (f : S -> A -> result S) (P : S -> Prop)
    (l : list A) :
  (forall st x, P st -> exists st', f st x = Ok st' ∧ P st') ->
  forall st, P st -> exists st', fold_result f l st = Ok st' ∧ P st'.
Proof.
  intros Hstep. induction l as [|x l IH]; intros st HP; simpl; [eauto|].
  destruct (Hstep st x HP) as (st1 & -> & HP1). simpl. by apply IH.
Qed.

Lemma txt_report_total sr use st report :
  store_off use st ->
  exists st', process_txt_report sr use st report = Ok st' ∧ store_off use st'.
Proof.
  intros Hoff. destruct report as [name lines]. unfold process_txt_report.
  destruct (bool_decide _); [eauto|].
  destruct (fold_result_total (process_txt_line sr use) (store_off use) lines
              (fun s x => txt_line_total sr use s x) st Hoff)
    as (st1 & -> & Hoff1).
  simpl. eauto.
Qed.


End PipelineErrors.

(** Concrete runs of the ingestion for the further properties. *)

Section PipelineFurtherRuns.
Import Raster Examples.
#[local] Existing Instances engine ingestion.

Lemma pipeline_frame_and_flag_witness :
  columns (out_gas_lines_gdf ingested) = columns base_lines
  ∧ (out_features_added ingested = false ->
     normalize_crs base_lines (EPSG 4326) = Ok (out_gas_lines_gdf ingested))
  ∧ (out_features_added ingested = true ->
     (length (rows base_lines) < length (rows (out_gas_lines_gdf ingested)))%nat).
Proof.
  apply (pipeline_frame_and_flag [("bad.geojson", bad_report)]
           [("pipes.txt", txt_lines)] base_lines (EPSG 4326) no_documents None
           true ingested).
  vm_compute. reflexivity.
Defined.

Lemma pipeline_leaves_collection_witness :
  out_collection ingested_offline = no_documents.
Proof.
  apply (pipeline_leaves_collection [] [("pipes.txt", txt_lines)] base_lines
           (EPSG 4326) no_documents None false ingested_offline).
  - vm_compute. reflexivity.
  - left. reflexivity.
Defined.

Lemma pipeline_rerun_is_noop_witness :
  create_pipeline_features [("bad.geojson", bad_report)]
    [("pipes.txt", txt_lines)] (out_gas_lines_gdf ingested) (EPSG 4326)
    (out_collection ingested) (Some (out_processed_reports ingested)) true
  = Ok (mkOutcome (out_processed_reports ingested) (out_gas_lines_gdf ingested)
          false (out_collection ingested)).
Proof.
  apply (pipeline_rerun_is_noop [("bad.geojson", bad_report)]
           [("pipes.txt", txt_lines)] base_lines (EPSG 4326) no_documents None
           true ingested).
  vm_compute. reflexivity.
Defined.



End PipelineFurtherRuns.
